(** * metrics-whisperer-ai: the presentation layer and the query pipeline

    A shallow embedding of [src/pages/Index.tsx] (the React page that
    submits a question to the backend and renders the answer) together
    with a model of the backend pipeline described by the specification
    (pattern matcher, query executor, response synthesizer), whose code
    ([backend/main.py]) is not part of the sources at hand.

    JavaScript values are embedded as follows.
    - [string]: a JavaScript string; one character stands for one UTF-16
      code unit (the development covers code units below 256).
    - [number]: an IEEE 754 binary64 value, as [spec_float] with precision
      53 and maximal exponent 1024.
    - [JsValue]: a value of static type [any], as produced by [JSON.parse].
    - exceptions: an [Outcome] is either a value or a thrown [Thrown]. *)

From Stdlib Require Import ZArith SpecFloat Ascii Lia.
From stdpp Require Import base option list strings pretty gmap.

Set Warnings "-register-all".

Open Scope string_scope.

(** ** Numbers *)

Module Number.

Definition prec : Z := 53.
Definition emax : Z := 1024.

Definition number : Type := spec_float.

(** The number denoted by an integer literal or by an array length. *)
Definition of_Z (z : Z) : number := binary_normalize prec emax z 0 false.
Definition of_nat (n : nat) : number := of_Z (Z.of_nat n).

Definition zero : number := S754_zero false.
Definition NaN : number := S754_nan.

Definition mul (x y : number) : number := SFmul prec emax x y.

(** [x > y], false as soon as one side is NaN. *)
Definition gt (x y : number) : bool := SFltb y x.

(** ToBoolean on numbers: [+0], [-0] and [NaN] are falsy. *)
Definition truthy (x : number) : bool :=
  match x with
  | S754_zero _ | S754_nan => false
  | S754_infinity _ | S754_finite _ _ _ => true
  end.

(** A number above zero: finite with a positive sign, or [+Infinity]. *)
Definition positive (x : number) : Prop :=
  (exists m e, x = S754_finite false m e) \/ x = S754_infinity false.

End Number.

Export Number(number).

(** ** Values of static type [any] *)

Inductive JsValue : Type :=
  | JUndefined
  | JNull
  | JBool (b : bool)
  | JNum (n : number)
  | JStr (s : string)
  | JArr (elems : list JsValue)
  | JObj (props : list (string * JsValue)).

(** What a [throw] carries: an instance of [Error] (also of its subclasses
    [TypeError], [SyntaxError], [DOMException]) with its [message], or any
    other value. *)
Inductive Thrown : Type :=
  | ErrorInstance (message : string)
  | OtherValue (v : JsValue).

(** A computation that returns or throws. *)
Inductive Outcome (A : Type) : Type :=
  | Ok (a : A)
  | Throw (t : Thrown).
Arguments Ok {A} a.
Arguments Throw {A} t.

Definition obind {A B} (m : Outcome A) (k : A -> Outcome B) : Outcome B :=
  match m with
  | Ok a => k a
  | Throw t => Throw t
  end.

Definition returns {A} (m : Outcome A) : Prop := exists a, m = Ok a.

(** The parts of the run time whose results are fixed by the engine and
    by React, not by the page: the decimal digits of a positive finite
    number [m * 2^e], the numeric value of a string, the text of the
    [TypeError] raised by a property access on [undefined] or [null], the
    text of the [TypeError] raised when an object has no primitive value,
    and the text of the error React raises for a child it cannot show. *)
Class Engine : Type := {
  finite_to_string : positive -> Z -> string;
  StringToNumber : string -> number;
  nullish_access_message : JsValue -> string -> string;
  not_primitive_message : JsValue -> string;
  invalid_child_message : JsValue -> string
}.

Section Conversions.
Context `{Engine}.

(** Number::toString, radix 10. *)
Definition Number_toString (x : number) : string :=
  match x with
  | S754_nan => "NaN"
  | S754_zero _ => "0"
  | S754_infinity false => "Infinity"
  | S754_infinity true => "-Infinity"
  | S754_finite false m e => finite_to_string m e
  | S754_finite true m e => "-" ++ finite_to_string m e
  end.

(** ToBoolean. *)
Definition ToBoolean (v : JsValue) : bool :=
  match v with
  | JUndefined | JNull => false
  | JBool b => b
  | JNum n => Number.truthy n
  | JStr s => negb (String.eqb s "")
  | JArr _ | JObj _ => true
  end.

Definition nullish (v : JsValue) : bool :=
  match v with
  | JUndefined | JNull => true
  | _ => false
  end.

(** [Array.prototype.join] with separator [sep], over the strings of
    the elements. *)
Fixpoint join (sep : string) (l : list string) : string :=
  match l with
  | [] => ""
  | [s] => s
  | s :: rest => s ++ sep ++ join sep rest
  end.

(** Whether an object has an own property of that name. *)
Fixpoint has_own (name : string) (props : list (string * JsValue)) : bool :=
  match props with
  | [] => false
  | (k, _) :: rest => String.eqb k name || has_own name rest
  end.

(** ToString. An array is joined with commas, [undefined] and [null]
    elements giving the empty string. A plain object goes through
    ToPrimitive: [Object.prototype.toString] gives its fixed text, unless
    an own property [toString] hides it; an own property that came out of
    [JSON.parse] is not callable, [valueOf] never gives a primitive, and so
    a [TypeError] is thrown. *)
Fixpoint ToString (v : JsValue) : Outcome string :=
  match v with
  | JUndefined => Ok "undefined"
  | JNull => Ok "null"
  | JBool true => Ok "true"
  | JBool false => Ok "false"
  | JNum n => Ok (Number_toString n)
  | JStr s => Ok s
  | JArr elems =>
      match
        (fix each (l : list JsValue) : Outcome (list string) :=
           match l with
           | [] => Ok []
           | x :: rest =>
               match (if nullish x then Ok "" else ToString x) with
               | Ok s =>
                   match each rest with
                   | Ok ss => Ok (s :: ss)
                   | Throw t => Throw t
                   end
               | Throw t => Throw t
               end
           end) elems
      with
      | Ok strings => Ok (join "," strings)
      | Throw t => Throw t
      end
  | JObj props =>
      if has_own "toString" props
      then Throw (ErrorInstance (not_primitive_message v))
      else Ok "[object Object]"
  end.

(** ToNumber; arrays and objects go through ToPrimitive, that is through
    their string ([valueOf] gives the object back), and throw when it
    does. *)
Definition ToNumber (v : JsValue) : Outcome number :=
  match v with
  | JUndefined => Ok Number.NaN
  | JNull => Ok Number.zero
  | JBool true => Ok (Number.of_Z 1)
  | JBool false => Ok Number.zero
  | JNum n => Ok n
  | JStr s => Ok (StringToNumber s)
  | JArr _ | JObj _ => obind (ToString v) (fun s => Ok (StringToNumber s))
  end.

Fixpoint lookup_prop (name : string) (props : list (string * JsValue))
  : JsValue :=
  match props with
  | [] => JUndefined
  | (k, v) :: rest => if String.eqb k name then v else lookup_prop name rest
  end.

(** [v.name] for a property name that no built-in prototype defines
    (the page reads [detail], [result], [length] and the five fields of
    an answer): an own property of
    an object, the length of an array or of a string, [undefined]
    otherwise; a [TypeError] on [undefined] and [null]. *)
Definition Get (v : JsValue) (name : string) : Outcome JsValue :=
  match v with
  | JUndefined | JNull =>
      Throw (ErrorInstance (nullish_access_message v name))
  | JObj props => Ok (lookup_prop name props)
  | JArr elems =>
      if String.eqb name "length"
      then Ok (JNum (Number.of_nat (length elems)))
      else Ok JUndefined
  | JStr s =>
      if String.eqb name "length"
      then Ok (JNum (Number.of_nat (String.length s)))
      else Ok JUndefined
  | JBool _ | JNum _ => Ok JUndefined
  end.

(** [v?.name]: [undefined] when [v] is [undefined] or [null]. *)
Definition GetOpt (v : JsValue) (name : string) : Outcome JsValue :=
  if nullish v then Ok JUndefined else Get v name.

(** [a || b] and [a && b] on values, with [b] evaluated on demand. *)
Definition js_or (a : JsValue) (b : Outcome JsValue) : Outcome JsValue :=
  if ToBoolean a then Ok a else b.

Definition js_and (a : JsValue) (b : Outcome JsValue) : Outcome JsValue :=
  if ToBoolean a then b else Ok a.

End Conversions.

(** ** Strings: [trim], JSON quoting, decimal digits *)

Module JsString.

(** WhiteSpace and LineTerminator code units below 256: TAB, LF, VT, FF,
    CR, SP and NBSP. *)
Definition is_white_space (c : Ascii.ascii) : bool :=
  let n := Ascii.nat_of_ascii c in
  (Nat.leb 9 n && Nat.leb n 13) || Nat.eqb n 32 || Nat.eqb n 160.

Fixpoint trim_start (s : string) : string :=
  match s with
  | String c rest => if is_white_space c then trim_start rest else s
  | EmptyString => EmptyString
  end.

(** [trim_end s] drops the trailing white space: a character is kept
    when it is not white space or when something is kept after it. *)
Fixpoint trim_end (s : string) : string :=
  match s with
  | String c rest =>
      match trim_end rest with
      | EmptyString =>
          if is_white_space c then EmptyString else String c EmptyString
      | kept => String c kept
      end
  | EmptyString => EmptyString
  end.

(** [String.prototype.trim]. *)
Definition trim (s : string) : string := trim_end (trim_start s).

Definition hex_digit (n : nat) : Ascii.ascii :=
  Ascii.ascii_of_nat (if Nat.ltb n 10 then 48 + n else 87 + n).

(** QuoteJSONString without the enclosing quotes: the two-character
    escapes, [\u00XX] for the other control characters, the character
    itself otherwise. *)
Definition escape_char (c : Ascii.ascii) : string :=
  let n := Ascii.nat_of_ascii c in
  let bs := String (Ascii.ascii_of_nat 92) EmptyString in
  if Nat.eqb n 8 then bs ++ "b"
  else if Nat.eqb n 9 then bs ++ "t"
  else if Nat.eqb n 10 then bs ++ "n"
  else if Nat.eqb n 12 then bs ++ "f"
  else if Nat.eqb n 13 then bs ++ "r"
  else if Nat.eqb n 34 then bs ++ String c EmptyString
  else if Nat.eqb n 92 then bs ++ bs
  else if Nat.ltb n 32 then
    bs ++ "u00" ++ String (hex_digit (n / 16))
                     (String (hex_digit (n mod 16)) EmptyString)
  else String c EmptyString.

Fixpoint escape (s : string) : string :=
  match s with
  | String c rest => escape_char c ++ escape rest
  | EmptyString => EmptyString
  end.

Definition dquote : string := String (Ascii.ascii_of_nat 34) EmptyString.

Definition QuoteJSONString (s : string) : string :=
  dquote ++ escape s ++ dquote.

(** [JSON.stringify] of an object literal with one string-valued
    property. *)
Definition JSON_stringify_1 (key value : string) : string :=
  "{" ++ QuoteJSONString key ++ ":" ++ QuoteJSONString value ++ "}".

(** Reading back: the JSON grammar of a string literal, for the escapes
    above. *)
Definition hex_value (c : Ascii.ascii) : option nat :=
  let n := Ascii.nat_of_ascii c in
  if Nat.leb 48 n && Nat.leb n 57 then Some (n - 48)
  else if Nat.leb 97 n && Nat.leb n 102 then Some (n - 87)
  else if Nat.leb 65 n && Nat.leb n 70 then Some (n - 55)
  else None.

Definition cons_fst (c : Ascii.ascii) (r : option (string * string))
  : option (string * string) :=
  match r with
  | Some (s, rest) => Some (String c s, rest)
  | None => None
  end.

(** The characters of a string literal up to its closing quote, decoded,
    and what follows the quote. *)
Fixpoint read_chars (s : string) : option (string * string) :=
  match s with
  | EmptyString => None
  | String c rest =>
      let n := Ascii.nat_of_ascii c in
      if Nat.eqb n 34 then Some (EmptyString, rest)
      else if Nat.eqb n 92 then
        match rest with
        | String e rest' =>
            let k := Ascii.nat_of_ascii e in
            let tail := read_chars rest' in
            if Nat.eqb k 98 then cons_fst (Ascii.ascii_of_nat 8) tail
            else if Nat.eqb k 116 then cons_fst (Ascii.ascii_of_nat 9) tail
            else if Nat.eqb k 110 then cons_fst (Ascii.ascii_of_nat 10) tail
            else if Nat.eqb k 102 then cons_fst (Ascii.ascii_of_nat 12) tail
            else if Nat.eqb k 114 then cons_fst (Ascii.ascii_of_nat 13) tail
            else if Nat.eqb k 34 || Nat.eqb k 92 || Nat.eqb k 47
            then cons_fst e tail
            else if Nat.eqb k 117 then
              match rest' with
              | String a (String b (String x (String y rest''))) =>
                  match hex_value a, hex_value b, hex_value x, hex_value y with
                  | Some 0, Some 0, Some hi, Some lo =>
                      cons_fst (Ascii.ascii_of_nat (16 * hi + lo))
                        (read_chars rest'')
                  | _, _, _, _ => None
                  end
              | _ => None
              end
            else None
        | EmptyString => None
        end
      else if Nat.ltb n 32 then None
      else cons_fst c (read_chars rest)
  end.

Definition read_string (s : string) : option (string * string) :=
  match s with
  | String c rest =>
      if Nat.eqb (Ascii.nat_of_ascii c) 34 then read_chars rest else None
  | EmptyString => None
  end.

(** Reading [{"key":"value"}] back. *)
Definition read_object_1 (s : string) : option (string * string) :=
  match s with
  | String "{" rest =>
      match read_string rest with
      | Some (key, String ":" rest') =>
          match read_string rest' with
          | Some (value, String "}" EmptyString) => Some (key, value)
          | _ => None
          end
      | _ => None
      end
  | _ => None
  end.

(** Whether every character of a string is white space. *)
Fixpoint all_white_space (s : string) : bool :=
  match s with
  | String c rest => is_white_space c && all_white_space rest
  | EmptyString => true
  end.

(** Whether a string is free of control characters (codes below 32). *)
Fixpoint no_control (s : string) : bool :=
  match s with
  | String c rest => Nat.leb 32 (Ascii.nat_of_ascii c) && no_control rest
  | EmptyString => true
  end.

End JsString.

(** ** [Number.prototype.toFixed(0)] *)

Section ToFixed.
Context `{Engine}.

(** The integer nearest to [m * 2^e], the larger one on a tie. *)
Definition round_half_up (m : positive) (e : Z) : Z :=
  match e with
  | Zneg p => (2 * Z.pos m + 2 ^ Z.pos p) / (2 * 2 ^ Z.pos p)
  | _ => Z.pos m * 2 ^ e
  end.

(** [m * 2^e >= 10^21]. *)
Definition at_least_1e21 (m : positive) (e : Z) : bool :=
  match e with
  | Zneg p => (10 ^ 21 * 2 ^ Z.pos p <=? Z.pos m)%Z
  | _ => (10 ^ 21 <=? Z.pos m * 2 ^ e)%Z
  end.

Definition Number_toFixed0 (x : number) : string :=
  match x with
  | S754_finite s m e =>
      (if s then "-" else "") ++
      (if at_least_1e21 m e then finite_to_string m e
       else pretty (round_half_up m e))
  | S754_zero _ => "0"
  | _ => Number_toString x
  end.

End ToFixed.

(** ** The page: [src/pages/Index.tsx] *)

Module Index.

(** [interface QueryResponse]; [raw_data] has type [any] and
    [grafana_url] is optional. *)
Record QueryResponse : Type := {
  natural_language_response : string;
  promql_query : string;
  raw_data : JsValue;
  grafana_url : option string;
  execution_time : number
}.

(** The JSON value of a body of the declared type, its keys in the order
    of the interface, an absent [grafana_url] having no key. *)
Definition to_json (r : QueryResponse) : JsValue :=
  JObj ([("natural_language_response", JStr (natural_language_response r));
         ("promql_query", JStr (promql_query r));
         ("raw_data", raw_data r)] ++
        match grafana_url r with
        | Some url => [("grafana_url", JStr url)]
        | None => []
        end ++
        [("execution_time", JNum (execution_time r))])%list.

(** The four [useState] cells of the component. The annotation
    [QueryResponse | null] of the response cell is not checked when the
    page runs: the cell holds whatever [res.json()] gave, [JNull] standing
    for [null]. *)
Record State : Type := {
  query : string;
  response : JsValue;
  loading : bool;
  error : option string
}.

Definition initial : State :=
  {| query := ""; response := JNull; loading := false; error := None |}.

(** [setQuery], as called by [onChange] and by [handleExampleClick]. *)
Definition setQuery (q : string) (st : State) : State :=
  {| query := q; response := response st;
     loading := loading st; error := error st |}.

Definition put_response (r : JsValue) (st : State) : State :=
  {| query := query st; response := r;
     loading := loading st; error := error st |}.

Definition put_loading (b : bool) (st : State) : State :=
  {| query := query st; response := response st;
     loading := b; error := error st |}.

Definition put_error (e : option string) (st : State) : State :=
  {| query := query st; response := response st;
     loading := loading st; error := e |}.

(** *** The outside world *)

Record Toast : Type := {
  title : string;
  description : string;
  variant : option string
}.

(** The second argument of [fetch]. *)
Record RequestInit : Type := {
  method : string;
  headers : list (string * string);
  body : string
}.

(** A response, by its [ok] flag, with what [res.json()] gives on it: a
    JSON value of any shape, or a throw. *)
Inductive Response : Type :=
  | Success (json : Outcome JsValue)
  | NotOk (json : Outcome JsValue).

Definition ok (res : Response) : bool :=
  match res with
  | Success _ => true
  | NotOk _ => false
  end.

(** The network: the promise returned by [fetch] resolves to a response
    or is rejected. *)
Definition Network : Type := string -> RequestInit -> Outcome Response.

(** What a run of the handler does, in order: the calls of the state
    setters, of [fetch] and of [toast]. *)
Inductive Effect : Type :=
  | PreventDefault
  | SetLoading (b : bool)
  | SetError (e : option string)
  | SetResponse (r : JsValue)
  | Fetch (url : string) (init : RequestInit)
  | ShowToast (t : Toast).

Record World : Type := {
  cells : State;
  trace : list Effect
}.

(** *** A monad for the handler: state cells, an effect trace,
    exceptions *)

Definition M (A : Type) : Type := World -> Outcome A * World.

#[export] Instance M_ret : MRet M := fun A a w => (Ok a, w).

#[export] Instance M_bind : MBind M := fun A B k m w =>
  match m w with
  | (Ok a, w') => k a w'
  | (Throw t, w') => (Throw t, w')
  end.

Definition throw {A} (t : Thrown) : M A := fun w => (Throw t, w).

Definition lift {A} (o : Outcome A) : M A := fun w => (o, w).

Definition emit (e : Effect) : M unit :=
  fun w => (Ok tt, {| cells := cells w; trace := trace w ++ [e] |}).

Definition write (e : Effect) (f : State -> State) : M unit :=
  fun w => (Ok tt, {| cells := f (cells w); trace := trace w ++ [e] |}).

Definition setLoading (b : bool) : M unit :=
  write (SetLoading b) (put_loading b).

Definition setError (e : option string) : M unit :=
  write (SetError e) (put_error e).

Definition setResponse (r : JsValue) : M unit :=
  write (SetResponse r) (put_response r).

(** [try { body } catch (err) { handler err } finally { cleanup }] *)
Definition try_catch_finally {A}
    (body : M A) (handler : Thrown -> M A) (cleanup : M unit) : M A :=
  fun w =>
    let '(r, w1) :=
      match body w with
      | (Ok a, w') => (Ok a, w')
      | (Throw t, w') => handler t w'
      end in
    match cleanup w1 with
    | (Ok _, w2) => (r, w2)
    | (Throw t, w2) => (Throw t, w2)
    end.

(** [a || b] where [a] is a string that may be absent: the absent and the
    empty string are falsy. *)
Definition string_or (a : option string) (b : string) : string :=
  match a with
  | Some s => if String.eqb s "" then b else s
  | None => b
  end.

(** [const getApiUrl = () => import.meta.env.VITE_API_URL ||
    'http://localhost:8000'], over the variables of [import.meta.env]. *)
Definition getApiUrl (env : gmap string string) : string :=
  string_or (env !! "VITE_API_URL") "http://localhost:8000".

Section Handler.
Context `{Engine}.
Variable env : gmap string string.
Variable net : Network.

(** [await fetch(url, init)]. *)
Definition fetch (url : string) (init : RequestInit) : M Response :=
  emit (Fetch url init);; lift (net url init).

(** [new Error(v)]: the message is the string of [v], and taking it can
    throw; without an argument, or with [undefined], the message is the
    empty one of [Error.prototype]. *)
Definition new_Error (v : JsValue) : Outcome Thrown :=
  match v with
  | JUndefined => Ok (ErrorInstance "")
  | _ => obind (ToString v) (fun message => Ok (ErrorInstance message))
  end.

(** [(data.execution_time * 1000).toFixed(0)], lines 69 and 230: reading
    the property throws on [null], and the product throws when the
    property has no primitive value. *)
Definition millis (data : JsValue) : Outcome string :=
  obind (Get data "execution_time") (fun t =>
  obind (ToNumber t) (fun n =>
  Ok (Number_toFixed0 (Number.mul n (Number.of_Z 1000))))).

(** Lines 45 to 47. *)
Definition clear_cells : M unit :=
  setLoading true;;
  setError None;;
  setResponse JNull.

(** The [try] block, lines 50 to 70; [q] is the [query] cell the handler
    closed over. *)
Definition try_block (q : string) : M unit :=
  let apiUrl := getApiUrl env in
  res ← fetch (apiUrl ++ "/query")
          {| method := "POST";
             headers := [("Content-Type", "application/json")];
             body := JsString.JSON_stringify_1 "query" q |};
  match res with
  | NotOk json =>
      errorData ← lift json;
      detail ← lift (Get errorData "detail");
      message ← lift (js_or detail (Ok (JStr "Query failed")));
      err ← lift (new_Error message);
      throw err
  | Success json =>
      data ← lift json;
      setResponse data;;
      ms ← lift (millis data);
      emit (ShowToast
              {| title := "Query successful!";
                 description := "Executed in " ++ ms ++ "ms";
                 variant := None |})
  end.

(** [err instanceof Error ? err.message : 'An error occurred'], line 72. *)
Definition errorMessage (err : Thrown) : string :=
  match err with
  | ErrorInstance message => message
  | OtherValue _ => "An error occurred"
  end.

(** The [catch] block, lines 71 to 78. *)
Definition catch_block (err : Thrown) : M unit :=
  setError (Some (errorMessage err));;
  emit (ShowToast
          {| title := "Query failed";
             description := errorMessage err;
             variant := Some "destructive" |}).

(** The [finally] block, line 80. *)
Definition finally_block : M unit := setLoading false.

(** [const handleSubmit = async (e: React.FormEvent) => ...] *)
Definition handleSubmit : M unit := fun w =>
  let q := query (cells w) in
  (emit PreventDefault;;
   if negb (ToBoolean (JStr (JsString.trim q))) then mret tt
   else
     clear_cells;;
     try_catch_finally (try_block q) catch_block finally_block) w.

(** A run of the handler from the cells [st], with an empty trace. *)
Definition run (st : State) : Outcome unit * World :=
  handleSubmit {| cells := st; trace := [] |}.

Definition after (st : State) : State := cells (snd (run st)).

Definition effects (st : State) : list Effect := trace (snd (run st)).

(** The values a run gives to [setResponse]. *)
Definition responses_set (st : State) : list JsValue :=
  omap (fun e => match e with
                 | SetResponse r => Some r
                 | _ => None
                 end) (effects st).

(** The requests a run sends. *)
Definition requests (st : State) : list (string * RequestInit) :=
  omap (fun e => match e with
                 | Fetch url init => Some (url, init)
                 | _ => None
                 end) (effects st).

End Handler.

(** *** The shapes of a run

    Names for what the statements below speak of: the guard of line 43,
    the one request of a run, and the ways a run past the guard ends. *)

Definition blank (q : string) : Prop := JsString.trim q = "".

Section Shapes.
Context `{Engine}.
Variable env : gmap string string.

Definition request_url : string := getApiUrl env ++ "/query".

Definition request_init (q : string) : RequestInit :=
  {| method := "POST";
     headers := [("Content-Type", "application/json")];
     body := JsString.JSON_stringify_1 "query" q |}.

Definition prologue (st : State) : list Effect :=
  [PreventDefault; SetLoading true; SetError None; SetResponse JNull;
   Fetch request_url (request_init (query st))].

Definition failure_toast (message : string) : Toast :=
  {| title := "Query failed";
     description := message;
     variant := Some "destructive" |}.

(** The run stored [data] and announced it with the duration [ms]. *)
Definition succeeded (st : State) (data : JsValue) (ms : string)
  : Outcome unit * World :=
  (Ok tt,
   {| cells := {| query := query st; response := data;
                  loading := false; error := None |};
      trace := prologue st ++
               [SetResponse data;
                ShowToast {| title := "Query successful!";
                             description := "Executed in " ++ ms ++ "ms";
                             variant := None |};
                SetLoading false] |}).

(** The run failed before it had a body to store. *)
Definition failed (st : State) (message : string) : Outcome unit * World :=
  (Ok tt,
   {| cells := {| query := query st; response := JNull;
                  loading := false; error := Some message |};
      trace := prologue st ++
               [SetError (Some message);
                ShowToast (failure_toast message);
                SetLoading false] |}).

(** The run stored [data] at line 65 and failed at line 69. *)
Definition failed_after_store (st : State) (data : JsValue) (message : string)
  : Outcome unit * World :=
  (Ok tt,
   {| cells := {| query := query st; response := data;
                  loading := false; error := Some message |};
      trace := prologue st ++
               [SetResponse data;
                SetError (Some message);
                ShowToast (failure_toast message);
                SetLoading false] |}).

(** The string of an outcome of strings, for the [catch] block. *)
Definition message_of (o : Outcome string) : string :=
  match o with
  | Ok s => s
  | Throw t => errorMessage t
  end.

(** The message of the error thrown at line 61, or of the one met on the
    way there, from what reading the body of the response gives. *)
Definition not_ok_message (json : Outcome JsValue) : string :=
  match json with
  | Throw t => errorMessage t
  | Ok errorData =>
      match Get errorData "detail" with
      | Throw t => errorMessage t
      | Ok detail =>
          message_of
            (ToString (if ToBoolean detail then detail
                       else JStr "Query failed"))
      end
  end.


End Shapes.

(** *** What the component renders *)

(** A child expression [{...}] of a JSX element, as the component hands
    it to React: an element, or a plain value. React shows a string or a
    number as text, nothing for a boolean, [null] or [undefined], the
    elements of an array one after the other, and rejects a plain
    object. *)
Inductive Child (E : Type) : Type :=
  | Element (e : E)
  | Value (v : JsValue).
Arguments Element {E} e.
Arguments Value {E} v.

(** [{cond && (<E ... />)}] *)
Definition when {E} (cond : JsValue) (e : E) : Child E :=
  if ToBoolean cond then Element e else Value cond.

Definition shown {E} (c : Child E) : bool :=
  match c with
  | Element _ => true
  | Value _ => false
  end.

(** Whether React can show a value as a child. *)
Fixpoint valid_child (v : JsValue) : bool :=
  match v with
  | JObj _ => false
  | JArr elems =>
      (fix all (l : list JsValue) : bool :=
         match l with
         | [] => true
         | x :: rest => valid_child x && all rest
         end) elems
  | _ => true
  end.

(** The cards under [{response && (...)}], lines 182 to 286: the children
    and the [href] as the component hands them to React. *)
Record AnswerCards : Type := {
  answer_text : JsValue;
  promql_code : JsValue;
  execution_badge : string;
  data_points_badge : JsValue;
  grafana_button : Child JsValue;
  raw_data_panel : Child JsValue
}.

Record View : Type := {
  input_disabled : bool;
  submit_disabled : bool;
  submit_label : string;
  error_alert : Child string;
  answer_cards : Child AnswerCards
}.

(** [disabled={loading || !query.trim()}], line 129. *)
Definition submit_button_disabled (st : State) : bool :=
  loading st || negb (ToBoolean (JStr (JsString.trim (query st)))).

Section Render.
Context `{Engine}.

(** [{(response.execution_time * 1000).toFixed(0)}ms], line 230. *)
Definition execution_label (r : JsValue) : Outcome string :=
  obind (millis r) (fun ms => Ok (ms ++ "ms")).

(** [{response.raw_data?.result?.length || 0}], line 236; [raw] is
    [response.raw_data]. *)
Definition data_points (raw : JsValue) : Outcome JsValue :=
  obind (GetOpt raw "result") (fun result =>
  obind (GetOpt result "length") (fun len =>
  js_or len (Ok (JNum Number.zero)))).

(** [response.raw_data?.result && response.raw_data.result.length > 0],
    line 265; [raw] is [response.raw_data]. The comparison converts the
    length to a number, which can throw. *)
Definition raw_data_condition (raw : JsValue) : Outcome JsValue :=
  obind (GetOpt raw "result") (fun guard =>
  js_and guard
    (obind (Get raw "result") (fun result =>
     obind (Get result "length") (fun len =>
     obind (ToNumber len) (fun n =>
     Ok (JBool (Number.gt n Number.zero))))))).

(** The cards as the component builds them, in the order of the source:
    lines 194, 212, 230, 236, 239 and 265. *)
Definition answer_tree (r : JsValue) : Outcome AnswerCards :=
  obind (Get r "natural_language_response") (fun sentence =>
  obind (Get r "promql_query") (fun promql =>
  obind (execution_label r) (fun badge =>
  obind (Get r "raw_data") (fun raw =>
  obind (data_points raw) (fun points =>
  obind (Get r "grafana_url") (fun url =>
  obind (raw_data_condition raw) (fun cond =>
  Ok {| answer_text := sentence;
        promql_code := promql;
        execution_badge := badge;
        data_points_badge := points;
        grafana_button := when url url;
        raw_data_panel := when cond raw |}))))))).

Definition check_child (v : JsValue) : Outcome unit :=
  if valid_child v then Ok tt
  else Throw (ErrorInstance (invalid_child_message v)).

(** What React does with the cards: it rejects a plain object among the
    children, and takes the string of the [href] it is given. *)
Definition React_accepts (cards : AnswerCards) : Outcome unit :=
  obind (check_child (answer_text cards)) (fun _ =>
  obind (check_child (promql_code cards)) (fun _ =>
  obind (check_child (data_points_badge cards)) (fun _ =>
  match grafana_button cards with
  | Element href => obind (ToString href) (fun _ => Ok tt)
  | Value _ => Ok tt
  end))).

(** The cards on the page: built by the component and accepted by
    React. *)
Definition render_answer (r : JsValue) : Outcome AnswerCards :=
  obind (answer_tree r) (fun cards =>
  obind (React_accepts cards) (fun _ => Ok cards)).

(** The body of the component, lines 88 to 294: the tree on the page for
    the cells [st]. *)
Definition render (st : State) : Outcome View :=
  obind
    (if ToBoolean (response st)
     then obind (render_answer (response st))
            (fun cards => Ok (Element cards))
     else Ok (Value (response st))) (fun cards =>
  Ok {| input_disabled := loading st;
        submit_disabled := submit_button_disabled st;
        submit_label := if loading st then "Analyzing..." else "Ask Question";
        error_alert :=
          match error st with
          | Some e => when (JStr e) e
          | None => Value JNull
          end;
        answer_cards := cards |}).

End Render.

(** *** The example questions *)

(** [const exampleQueries = [...]], lines 32 to 39. *)
Definition exampleQueries : list string :=
  ["What's the average CPU usage?";
   "Show me the request rate";
   "What's the current memory usage?";
   "What's the error rate?";
   "Show me request latency";
   "Is the system up?"].

(** [const handleExampleClick = (exampleQuery: string) =>
    { setQuery(exampleQuery); }], lines 84 to 86. *)
Definition handleExampleClick (exampleQuery : string) (st : State) : State :=
  setQuery exampleQuery st.

(** The cells while the request is awaited: the handler has run lines 45
    to 47 and is suspended at the [await] of line 51. *)
Definition in_flight (st : State) : State :=
  cells (snd (clear_cells {| cells := st; trace := [] |})).

(** An answer with another [grafana_url]. *)
Definition with_grafana_url (url : option string) (r : QueryResponse)
  : QueryResponse :=
  {| natural_language_response := natural_language_response r;
     promql_query := promql_query r;
     raw_data := raw_data r;
     grafana_url := url;
     execution_time := execution_time r |}.

(** The value of [response.grafana_url] for a body of the declared
    type. *)
Definition grafana_url_value (r : QueryResponse) : JsValue :=
  match grafana_url r with
  | Some url => JStr url
  | None => JUndefined
  end.

(** The cards of a body of the declared type, given its Data Points
    value and the value of the condition of line 265. *)
Definition typed_cards `{Engine} (r : QueryResponse) (points cond : JsValue)
  : AnswerCards :=
  {| answer_text := JStr (natural_language_response r);
     promql_code := JStr (promql_query r);
     execution_badge :=
       Number_toFixed0 (Number.mul (execution_time r) (Number.of_Z 1000))
       ++ "ms";
     data_points_badge := points;
     grafana_button := when (grafana_url_value r) (grafana_url_value r);
     raw_data_panel := when cond (raw_data r) |}.

(** A [raw_data] of the shape the store gives: absent, or an object whose
    [result] is absent or an array. *)
Definition plain_result `{Engine} (raw : JsValue) : Prop :=
  nullish raw = true \/
  exists result,
    Get raw "result" = Ok result /\
    (nullish result = true \/ exists elems, result = JArr elems).

End Index.

(** ** A reference engine

    Number::toString by the shortest decimal that reads back as the same
    binary64 value, StringToNumber by exact rounding of the decimal or
    hexadecimal literal, and the [TypeError] text of V8. *)

Module Reference.

Local Open Scope Z_scope.

(** [s * 10^t] compared with [x * 2^e]. *)
Definition compare_scaled (s t x e : Z) : comparison :=
  (s * 10 ^ Z.max t 0 * 2 ^ Z.max (- e) 0
   ?= x * 10 ^ Z.max (- t) 0 * 2 ^ Z.max e 0).

Section Shortest.
Variable m : positive.
Variable e : Z.

(** In units of [2^(e-2)] the value is [4m], the midpoint to the next
    number [4m+2] and the midpoint to the previous one [4m-2], or [4m-1]
    when [m] is the least mantissa of its binade. *)
Definition unit_exp : Z := e - 2.
Definition upper : Z := 4 * Z.pos m + 2.
Definition lower : Z :=
  if (Z.pos m =? 2 ^ 52) && (-1074 <? e)
  then 4 * Z.pos m - 1 else 4 * Z.pos m - 2.

(** [s * 10^t] rounds to [m * 2^e]; the midpoints do when [m] is even. *)
Definition reads_back (s t : Z) : bool :=
  match compare_scaled s t lower unit_exp,
        compare_scaled s t upper unit_exp with
  | Gt, Lt => true
  | Eq, Lt | Gt, Eq => Z.even (Z.pos m)
  | _, _ => false
  end.

(** The least [n] from [n0] on with [m * 2^e < 10^n]. *)
Fixpoint decimal_exponent (fuel : nat) (n0 : Z) : Z :=
  match fuel with
  | O => n0
  | S fuel' =>
      match compare_scaled 1 n0 (4 * Z.pos m) unit_exp with
      | Gt => n0
      | _ => decimal_exponent fuel' (n0 + 1)
      end
  end.

(** The integer part of [m * 2^e / 10^t]. *)
Definition scaled_floor (t : Z) : Z :=
  (4 * Z.pos m * 2 ^ Z.max unit_exp 0 * 10 ^ Z.max (- t) 0)
  / (2 ^ Z.max (- unit_exp) 0 * 10 ^ Z.max t 0).

(** Among [s] and [s+1] times [10^t], the one that reads back; the
    nearer one when both do, the even one on a tie. *)
Definition candidate (t : Z) : option Z :=
  let s := scaled_floor t in
  match reads_back s t, reads_back (s + 1) t with
  | true, true =>
      match compare_scaled (2 * s + 1) t (8 * Z.pos m) unit_exp with
      | Gt => Some s
      | Lt => Some (s + 1)
      | Eq => Some (if Z.even s then s else s + 1)
      end
  | true, false => Some s
  | false, true => Some (s + 1)
  | false, false => None
  end.

(** The first [k] from [k0] on, with [fuel] tries, for which a [k]-digit
    decimal reads back, as the pair of its digits and its exponent. *)
Fixpoint shortest (fuel : nat) (n k0 : Z) : Z * Z :=
  match fuel with
  | O => (scaled_floor (n - k0), n - k0)
  | S fuel' =>
      match candidate (n - k0) with
      | Some s => (s, n - k0)
      | None => shortest fuel' n (k0 + 1)
      end
  end.

End Shortest.

Fixpoint strip_zeros (fuel : nat) (s t : Z) : Z * Z :=
  match fuel with
  | O => (s, t)
  | S fuel' =>
      if (0 <? s) && (s mod 10 =? 0) then strip_zeros fuel' (s / 10) (t + 1)
      else (s, t)
  end.

Fixpoint zeros (n : nat) : string :=
  match n with
  | O => ""
  | S n' => "0" ++ zeros n'
  end.

(** The notation of Number::toString for the digits [ds] of [s], [k] of
    them, and the decimal exponent [n] of [s * 10^(n-k)]. *)
Definition notation (ds : string) (n : Z) : string :=
  let k := Z.of_nat (String.length ds) in
  if (k <=? n) && (n <=? 21) then ds ++ zeros (Z.to_nat (n - k))
  else if (0 <? n) && (n <=? 21) then
    String.substring 0 (Z.to_nat n) ds ++ "." ++
    String.substring (Z.to_nat n) (Z.to_nat (k - n)) ds
  else if (-6 <? n) && (n <=? 0) then "0." ++ zeros (Z.to_nat (- n)) ++ ds
  else
    let exponent :=
      (if 0 <=? n - 1 then "+" else "-") ++ pretty (Z.abs (n - 1)) in
    if k =? 1 then ds ++ "e" ++ exponent
    else String.substring 0 1 ds ++ "." ++
         String.substring 1 (Z.to_nat (k - 1)) ds ++ "e" ++ exponent.

Definition shortest_digits (m : positive) (e : Z) : string :=
  let n := decimal_exponent m e 700 (-330) in
  let '(s, t) := shortest m e 17 n 1 in
  let '(s', t') := strip_zeros 400 s t in
  let ds := pretty s' in
  notation ds (t' + Z.of_nat (String.length ds)).

(** The value of a digit in the given radix. *)
Definition digit_value (radix : Z) (c : Ascii.ascii) : option Z :=
  let n := Z.of_nat (Ascii.nat_of_ascii c) in
  let v :=
    if (48 <=? n) && (n <=? 57) then n - 48
    else if (97 <=? n) && (n <=? 102) then n - 87
    else if (65 <=? n) && (n <=? 70) then n - 55
    else radix in
  if v <? radix then Some v else None.

(** The longest prefix of digits: its value after [acc], the number of
    digits read, and what follows. *)
Fixpoint read_digits (radix : Z) (s : string) (acc : Z) (count : nat)
  : Z * nat * string :=
  match s with
  | String c rest =>
      match digit_value radix c with
      | Some v => read_digits radix rest (acc * radix + v) (S count)
      | None => (acc, count, s)
      end
  | EmptyString => (acc, count, s)
  end.

(** The binary64 value nearest to [d * 10^pow], ties to even. *)
Definition round_decimal (negative : bool) (d pow : Z) : number :=
  match d with
  | Z0 => S754_zero negative
  | Zpos p =>
      if 0 <=? pow
      then binary_round Number.prec Number.emax negative
             (Z.to_pos (d * 10 ^ pow)) 0
      else
        let '(q, e', l) :=
          SFdiv_core_binary Number.prec Number.emax d 0 (10 ^ (- pow)) 0 in
        binary_round_aux Number.prec Number.emax negative q e' l
  | Zneg _ => S754_nan
  end.

(** ExponentPart, or nothing: the exponent when [s] is one of them. *)
Definition read_exponent (s : string) : option Z :=
  match s with
  | EmptyString => Some 0
  | String c rest =>
      if Ascii.eqb c "e"%char || Ascii.eqb c "E"%char then
        let '(negative, digits) :=
          match rest with
          | String "-"%char r => (true, r)
          | String "+"%char r => (false, r)
          | _ => (false, rest)
          end in
        match read_digits 10 digits 0 0 with
        | (_, O, _) => None
        | (v, _, EmptyString) => Some (if negative then - v else v)
        | _ => None
        end
      else None
  end.

(** StrUnsignedDecimalLiteral other than [Infinity]. *)
Definition unsigned_decimal (negative : bool) (s : string) : number :=
  let '(int_part, int_count, after_int) := read_digits 10 s 0 0 in
  let '(all, frac_count, after_frac) :=
    match after_int with
    | String "."%char r => read_digits 10 r int_part 0
    | _ => (int_part, O, after_int)
    end in
  match (int_count + frac_count)%nat, read_exponent after_frac with
  | S _, Some exponent =>
      round_decimal negative all (exponent - Z.of_nat frac_count)
  | _, _ => S754_nan
  end.

Definition signed_decimal (negative : bool) (s : string) : number :=
  if String.eqb s "Infinity" then S754_infinity negative
  else unsigned_decimal negative s.

Definition non_decimal (radix : Z) (digits : string) : number :=
  match read_digits radix digits 0 0 with
  | (_, O, _) => S754_nan
  | (v, _, EmptyString) => Number.of_Z v
  | _ => S754_nan
  end.

Definition numeric_value (text : string) : number :=
  match JsString.trim text with
  | EmptyString => S754_zero false
  | String "-"%char rest => signed_decimal true rest
  | String "+"%char rest => signed_decimal false rest
  | String "0"%char (String c rest) as s =>
      let either a b := Ascii.eqb c a || Ascii.eqb c b in
      if either "x"%char "X"%char then non_decimal 16 rest
      else if either "o"%char "O"%char then non_decimal 8 rest
      else if either "b"%char "B"%char then non_decimal 2 rest
      else signed_decimal false s
  | s => signed_decimal false s
  end.

Definition quoted (s : string) : string := "'" ++ s ++ "'".

(** V8: [Cannot read properties of null (reading 'detail')]. *)
Definition cannot_read (v : JsValue) (name : string) : string :=
  "Cannot read properties of " ++
  match v with JNull => "null" | _ => "undefined" end ++
  " (reading " ++ quoted name ++ ")".

(** V8: [Cannot convert object to primitive value]. *)
Definition cannot_convert (v : JsValue) : string :=
  "Cannot convert object to primitive value".

(** The object React stops at: the value itself, or the first object
    among the elements of an array. *)
Fixpoint offending_object (v : JsValue) : option (list (string * JsValue)) :=
  match v with
  | JObj props => Some props
  | JArr elems =>
      (fix first (l : list JsValue) : option (list (string * JsValue)) :=
         match l with
         | [] => None
         | x :: rest =>
             match offending_object x with
             | Some props => Some props
             | None => first rest
             end
         end) elems
  | _ => None
  end.

(** The array index a key stands for, if it is the canonical numeral of
    one. *)
Definition array_index (key : string) : option Z :=
  match read_digits 10 key 0 0 with
  | (v, S _, EmptyString) =>
      if String.eqb (pretty v) key && (v <? 2 ^ 32 - 1) then Some v else None
  | _ => None
  end.

Fixpoint insert_sorted (v : Z) (l : list Z) : list Z :=
  match l with
  | [] => [v]
  | x :: rest => if v <=? x then v :: l else x :: insert_sorted v rest
  end.

(** [Object.keys]: the array indices in ascending order, then the other
    keys in the order they were added. *)
Definition Object_keys (props : list (string * JsValue)) : list string :=
  (map pretty (foldr insert_sorted [] (omap (fun p => array_index p.1) props))
   ++ filter (fun k => array_index k = None) (map fst props))%list.

(** React: [Objects are not valid as a React child (found: object with
    keys {...})]. *)
Definition invalid_child (v : JsValue) : string :=
  "Objects are not valid as a React child (found: object with keys {" ++
  join ", " (Object_keys (default [] (offending_object v))) ++
  "}). If you meant to render a collection of children, " ++
  "use an array instead.".

#[export] Instance engine : Engine := {|
  finite_to_string := shortest_digits;
  StringToNumber := numeric_value;
  nullish_access_message := cannot_read;
  not_primitive_message := cannot_convert;
  invalid_child_message := invalid_child
|}.

End Reference.

(** ** The backend pipeline

    The pipeline is implemented in [backend/main.py], which is not among
    the sources at hand; everything in this module follows the
    specification. *)

Module Pipeline.

(** Modelled from the spec: QueryKind of section 3, the classification
    label of a query. *)
Inductive QueryKind : Type :=
  | Cpu | Memory | Rate | Latency | Errors | Availability | Unknown.

(** Modelled from the spec: the structured-query template of a rule
    (sections 3 and 4.1), text with holes for the time window. *)
Inductive Piece : Type :=
  | Text (s : string)
  | Window.

Definition Template : Type := list Piece.

(** Modelled from the spec: Rule of section 3, a pattern over free text
    paired with a template. *)
Record Rule (Pattern : Type) : Type := {
  pattern : Pattern;
  template : Template
}.
Arguments pattern {Pattern} r.
Arguments template {Pattern} r.

(** Modelled from the spec: the three failure kinds of section 7. *)
Inductive Failure : Type :=
  | UnrecognizedQuery (text : string)
  | StoreQueryError (message : string)
  | StoreUnavailable.

(** Modelled from the spec: a sample and SeriesResult of section 3. *)
Record Sample : Type := {
  labels : list (string * string);
  value : number
}.

Definition SeriesResult : Type := list Sample.

(** Modelled from the spec: AnswerResponse of section 3. *)
Record AnswerResponse : Type := {
  sentence : string;
  structured_query : string;
  series : SeriesResult;
  visualization_url : option string;
  execution_latency : number
}.

(** Modelled from the spec: the configuration surface of section 6. *)
Record Config : Type := {
  store_endpoint : string;
  visualization_base : option string;
  time_window : string
}.

(** Modelled from the spec: what the metrics store does with one query
    (section 4.2): it cannot be reached, it rejects the query with a
    message, or it returns samples; the last two after some time. *)
Inductive StoreReply : Type :=
  | Unreachable
  | Rejected (message : string) (elapsed : number)
  | Returned (result : SeriesResult) (elapsed : number).

(** Modelled from the spec: the case normalization of the input
    (section 4.1), on the letters A to Z. *)
Definition lower_char (c : Ascii.ascii) : Ascii.ascii :=
  let n := Ascii.nat_of_ascii c in
  if Nat.leb 65 n && Nat.leb n 90 then Ascii.ascii_of_nat (n + 32) else c.

Fixpoint lowercase (s : string) : string :=
  match s with
  | String c rest => String (lower_char c) (lowercase rest)
  | EmptyString => EmptyString
  end.

(** Modelled from the spec: the substitution of the default time window
    into a template (section 4.1). *)
Fixpoint resolve (window : string) (t : Template) : string :=
  match t with
  | [] => ""
  | Text s :: rest => s ++ resolve window rest
  | Window :: rest => window ++ resolve window rest
  end.

Section WithRules.
(** The pattern language, the classification of a query, the phrasing of
    the sentences and the encoding of the deep link are left open by the
    specification; [matches p text] says whether the pattern [p] matches
    somewhere in the case-normalized [text]. *)
Variable Pattern : Type.
Variable matches : Pattern -> string -> bool.
Variable classify : string -> QueryKind.
Variable phrase : QueryKind -> number -> string.
Variable no_data : QueryKind -> string.
Variable deep_link : string -> string -> string.
Variable config : Config.
Variable rules : list (Rule Pattern).
Variable store : string -> string -> StoreReply.

(** Modelled from the spec: the rule loop of the Pattern Matcher (4.1),
    whose code is in [backend/main.py]: the rules are tried in their
    declaration order against the case-normalized input and the first one
    that matches is used. *)
Fixpoint first_match (rs : list (Rule Pattern)) (input : string)
  : option (Rule Pattern) :=
  match rs with
  | [] => None
  | r :: rest =>
      if matches (pattern r) input then Some r else first_match rest input
  end.

(** Modelled from the spec: [translate] of the Pattern Matcher (4.1): the
    template of the first matching rule with the default time window
    substituted, or [UnrecognizedQuery] with the original text. *)
Definition translate (question : string) : Failure + string * QueryKind :=
  match first_match rules (lowercase question) with
  | Some r =>
      let q := resolve (time_window config) (template r) in
      inr (q, classify q)
  | None => inl (UnrecognizedQuery question)
  end.

(** Modelled from the spec: the one effect of the pipeline is the call
    to the store (section 4.2); a run threads the log of the queries
    sent. *)
Definition Run (A : Type) : Type := list string -> A * list string.

(** Modelled from the spec: [execute] of the Query Executor (4.2): one
    call to the store with the query verbatim, and the classification of
    its reply. *)
Definition execute (q : string) : Run (Failure + SeriesResult * number) :=
  fun sent =>
    (match store (store_endpoint config) q with
     | Unreachable => inl StoreUnavailable
     | Rejected message _ => inl (StoreQueryError message)
     | Returned result elapsed => inr (result, elapsed)
     end, (sent ++ [q])%list).

(** Modelled from the spec: [synthesize] of the Response Synthesizer
    (4.3): the phrasing of the kind around the first sample, or the
    no-data sentence, and the deep link when a base address is
    configured. *)
Definition synthesize (kind : QueryKind) (result : SeriesResult) (q : string)
  : string * option string :=
  (match result with
   | first :: _ => phrase kind (value first)
   | [] => no_data kind
   end,
   match visualization_base config with
   | Some base => Some (deep_link base q)
   | None => None
   end).

(** Modelled from the spec: the inbound operation [answer] (sections 2
    and 6): the three components in pipeline order, a failure of one
    ending the request. *)
Definition answer (question : string) : Run (Failure + AnswerResponse) :=
  fun sent =>
    match translate question with
    | inl failure => (inl failure, sent)
    | inr (q, kind) =>
        match execute q sent with
        | (inl failure, sent') => (inl failure, sent')
        | (inr (result, elapsed), sent') =>
            let '(text, url) := synthesize kind result q in
            (inr {| sentence := text;
                    structured_query := q;
                    series := result;
                    visualization_url := url;
                    execution_latency := elapsed |}, sent')
        end
    end.

End WithRules.

(** Modelled from the spec: a pattern language for examples, in which a
    pattern is a keyword and matches when it occurs in the text. *)
Fixpoint prefix (p s : string) : bool :=
  match p, s with
  | EmptyString, _ => true
  | String a p', String b s' => Ascii.eqb a b && prefix p' s'
  | String _ _, EmptyString => false
  end.

Fixpoint occurs (keyword text : string) : bool :=
  prefix keyword text ||
  match text with
  | String _ rest => occurs keyword rest
  | EmptyString => false
  end.

End Pipeline.

(** ** Sample inputs *)

Module Sample.

Import Index.

(** The answer of the README, with two series in the raw data. *)
Definition data : QueryResponse :=
  {| natural_language_response := "The CPU usage is currently 45.2%";
     promql_query := "rate(cpu_usage_percent[5m])";
     raw_data :=
       JObj [("resultType", JStr "vector");
             ("result", JArr [JObj [("value", JStr "45.2")];
                              JObj [("value", JStr "44.9")]])];
     grafana_url := Some "http://localhost:3000/explore";
     execution_time := Reference.numeric_value "0.123" |}.

(** The same answer with an empty visualization address. *)
Definition data_empty_link : QueryResponse :=
  {| natural_language_response := natural_language_response data;
     promql_query := promql_query data;
     raw_data := raw_data data;
     grafana_url := Some "";
     execution_time := execution_time data |}.

(** A body whose [execution_time] is an object with an own [toString]. *)
Definition body_odd_time : JsValue :=
  JObj [("natural_language_response", JStr "The CPU usage is 45.2%");
        ("execution_time", JObj [("toString", JNum (Number.of_Z 1))])].

(** The state after the user typed a question. *)
Definition asked : State := setQuery "What's the average CPU usage?" initial.

Definition replies_ok : Network := fun _ _ => Ok (Success (Ok (to_json data))).

(** A backend that answers every request with an ok status and the given
    body. *)
Definition replies_body (body : JsValue) : Network :=
  fun _ _ => Ok (Success (Ok body)).

(** A backend that answers every request with an error status and the
    given [detail]. *)
Definition replies_detail (detail : JsValue) : Network :=
  fun _ _ => Ok (NotOk (Ok (JObj [("detail", detail)]))).

(** Two rules that overlap on questions about CPU usage, over keyword
    patterns. *)
Definition rules : list (Pipeline.Rule string) :=
  [ {| Pipeline.pattern := "cpu";
       Pipeline.template :=
         [Pipeline.Text "avg(rate(cpu_usage_percent[";
          Pipeline.Window; Pipeline.Text "]))"] |};
    {| Pipeline.pattern := "usage";
       Pipeline.template := [Pipeline.Text "memory_usage_bytes"] |} ].

Definition config : Pipeline.Config :=
  {| Pipeline.store_endpoint := "http://prometheus:9090";
     Pipeline.visualization_base := Some "http://grafana:3000";
     Pipeline.time_window := "5m" |}.

Definition classify (q : string) : Pipeline.QueryKind :=
  if Pipeline.occurs "cpu" q then Pipeline.Cpu
  else if Pipeline.occurs "memory" q then Pipeline.Memory
  else Pipeline.Unknown.

Definition store (endpoint q : string) : Pipeline.StoreReply :=
  Pipeline.Returned [] Number.zero.

End Sample.

(** * Properties *)

(** ** Array lengths as numbers *)

Section NumberFacts.
Local Open Scope Z_scope.

Lemma digits2_pos_size (p : positive) : digits2_pos p = Pos.size p.
Proof. induction p as [p IH|p IH|]; simpl; congruence. Qed.

Lemma digits2_pos_lower (p : positive) :
  2 ^ (Z.pos (digits2_pos p) - 1) <= Z.pos p.
Proof.
  rewrite digits2_pos_size.
  pose proof (Pos.size_le p) as Hle.
  apply Pos2Z.pos_le_pos in Hle.
  rewrite Pos2Z.inj_pow in Hle.
  change (Z.pos p~0) with (2 * Z.pos p) in Hle.
  assert (E : 2 ^ Z.pos (Pos.size p) = 2 * 2 ^ (Z.pos (Pos.size p) - 1)).
  { rewrite <- Z.pow_succ_r by lia. f_equal. lia. }
  lia.
Qed.

Lemma shr_m_of_loc (m : Z) (l : location) :
  shr_m (shr_record_of_loc m l) = m.
Proof. destruct l as [|[| |]]; reflexivity. Qed.

Lemma shr_1_half (mrs : shr_record) :
  0 <= shr_m mrs -> shr_m (shr_1 mrs) = shr_m mrs / 2.
Proof.
  destruct mrs as [m r s]; simpl; intros Hm.
  destruct m as [|[p|p|]|p]; simpl; try reflexivity; try lia.
  - rewrite Pos2Z.inj_xI. apply Z.div_unique with (r := 1); lia.
  - rewrite Pos2Z.inj_xO. apply Z.div_unique with (r := 0); lia.
Qed.

Lemma iter_shr_1_div (n : positive) : forall mrs : shr_record,
  0 <= shr_m mrs ->
  shr_m (SpecFloat.iter_pos shr_1 n mrs) = shr_m mrs / 2 ^ Z.pos n.
Proof.
  induction n as [n IH|n IH|]; intros mrs Hm; cbn [SpecFloat.iter_pos].
  - assert (H1 : 0 <= shr_m (shr_1 mrs)).
    { rewrite shr_1_half by done. apply Z.div_pos; lia. }
    assert (H2 : 0 <= shr_m (SpecFloat.iter_pos shr_1 n (shr_1 mrs))).
    { rewrite IH by done. apply Z.div_pos; lia. }
    rewrite IH, IH, shr_1_half by done.
    rewrite !Z.div_div by lia.
    f_equal. rewrite <- Z.pow_add_r, <- Z.pow_succ_r by lia.
    f_equal. lia.
  - assert (H2 : 0 <= shr_m (SpecFloat.iter_pos shr_1 n mrs)).
    { rewrite IH by done. apply Z.div_pos; lia. }
    rewrite IH, IH by done.
    rewrite !Z.div_div by lia.
    f_equal. rewrite <- Z.pow_add_r by lia.
    f_equal. lia.
  - now rewrite shr_1_half.
Qed.

(** Shifting a positive mantissa to its format leaves it positive, as long
    as the exponent is not below the least one. *)
Lemma shr_fexp_positive (q : positive) (e : Z) (l : location) :
  -1074 <= e ->
  exists q' e', 
    shr_m (fst (shr_fexp Number.prec Number.emax (Z.pos q) e l)) = Z.pos q' /\
    snd (shr_fexp Number.prec Number.emax (Z.pos q) e l) = e' /\ e <= e'.
Proof.
  intros He. unfold shr_fexp, shr.
  set (n := fexp Number.prec Number.emax (Zdigits2 (Z.pos q) + e) - e).
  assert (Hn : n <= 0 \/ n <= Z.pos (digits2_pos q) - 53).
  { unfold n, fexp, emin, Number.prec, Number.emax. simpl Zdigits2.
    pose proof (Pos2Z.is_pos (digits2_pos q)). lia. }
  destruct n as [|pn|pn] eqn:En.
  - exists q, e. simpl. rewrite shr_m_of_loc. split_and!; [done|done|lia].
  - simpl fst; simpl snd.
    rewrite iter_shr_1_div by (rewrite shr_m_of_loc; lia).
    rewrite shr_m_of_loc.
    assert (Hq : 2 ^ Z.pos pn <= Z.pos q).
    { etrans; [|apply digits2_pos_lower].
      apply Z.pow_le_mono_r; lia. }
    assert (Hd : 0 < Z.pos q / 2 ^ Z.pos pn).
    { apply Z.div_str_pos. split; [apply Z.pow_pos_nonneg; lia|done]. }
    destruct (Z.pos q / 2 ^ Z.pos pn) as [|q'|q'] eqn:Eq; try lia.
    exists q', (e + Z.pos pn). split_and!; [done|done|lia].
  - exists q, e. simpl. rewrite shr_m_of_loc. split_and!; [done|done|lia].
Qed.

Lemma round_nearest_even_positive (q : positive) (l : location) :
  exists q', round_nearest_even (Z.pos q) l = Z.pos q'.
Proof.
  destruct l as [|[| |]]; simpl; eauto.
  destruct q; simpl; eauto.
Qed.

Lemma binary_round_aux_positive (q : positive) (e : Z) (l : location) :
  -1074 <= e ->
  Number.positive
    (binary_round_aux Number.prec Number.emax false (Z.pos q) e l).
Proof.
  intros He. unfold binary_round_aux.
  destruct (shr_fexp_positive q e l He) as (q1 & e1 & Hm1 & He1 & Hle1).
  destruct (shr_fexp Number.prec Number.emax (Z.pos q) e l) as [mrs1 e1'].
  simpl in Hm1, He1. subst e1'. rewrite Hm1.
  destruct (round_nearest_even_positive q1 (loc_of_shr_record mrs1))
    as [q2 ->].
  destruct (shr_fexp_positive q2 e1 loc_Exact ltac:(lia))
    as (q3 & e3 & Hm3 & He3 & Hle3).
  destruct (shr_fexp Number.prec Number.emax (Z.pos q2) e1 loc_Exact)
    as [mrs3 e3'].
  simpl in Hm3, He3. subst e3'. rewrite Hm3.
  destruct (e3 <=? Number.emax - Number.prec); [left; eauto|right; done].
Qed.

Lemma of_nat_positive (n : nat) :
  (0 < n)%nat -> Number.positive (Number.of_nat n).
Proof.
  intros Hn. unfold Number.of_nat, Number.of_Z, binary_normalize.
  destruct (Z.of_nat n) as [|p|p] eqn:En; try lia.
  unfold binary_round, shl_align.
  set (e' := fexp Number.prec Number.emax (Z.pos (digits2_pos p) + 0)).
  assert (He' : -1074 <= e').
  { unfold e', fexp, emin, Number.prec, Number.emax. lia. }
  destruct (e' - 0); apply binary_round_aux_positive; lia.
Qed.

Lemma positive_truthy (x : number) :
  Number.positive x -> Number.truthy x = true.
Proof. intros [(m & e & ->)| ->]; reflexivity. Qed.

Lemma positive_gt_zero (x : number) :
  Number.positive x -> Number.gt x Number.zero = true.
Proof. intros [(m & e & ->)| ->]; reflexivity. Qed.

Lemma of_nat_truthy (n : nat) :
  Number.truthy (Number.of_nat n) = negb (Nat.eqb n 0).
Proof.
  destruct n as [|n]; [reflexivity|].
  apply positive_truthy, of_nat_positive. lia.
Qed.

Lemma of_nat_gt_zero (n : nat) :
  Number.gt (Number.of_nat n) Number.zero = Nat.ltb 0 n.
Proof.
  destruct n as [|n]; [reflexivity|].
  apply positive_gt_zero, of_nat_positive. lia.
Qed.

End NumberFacts.

(** ** The reference engine on examples *)

Example number_to_string_examples :
  map (fun text => Number_toString (H := Reference.engine)
                     (Reference.numeric_value text))
    ["45.2"; "0.123"; "1e21"; "0.000001"; "1e-7"; " 12 "; "0x1F"; "abc";
     "1e400"; "-0"; "0.30000000000000004"; "9007199254740993"]
  = ["45.2"; "0.123"; "1e+21"; "0.000001"; "1e-7"; "12"; "31"; "NaN";
     "Infinity"; "0"; "0.30000000000000004"; "9007199254740992"].
Proof. vm_compute. reflexivity. Qed.

Example to_fixed_examples :
  map (fun text => Number_toFixed0 (H := Reference.engine)
                     (Reference.numeric_value text))
    ["0.5"; "1.5"; "2.5"; "-2.5"; "-0.2"; "123.456"; "1e21"; "x"]
  = ["1"; "2"; "3"; "-3"; "-0"; "123"; "1e+21"; "NaN"].
Proof. vm_compute. reflexivity. Qed.

Example execution_label_sample :
  Index.execution_label (H := Reference.engine) (Index.to_json Sample.data)
    = Ok "123ms".
Proof. vm_compute. reflexivity. Qed.

Example to_string_examples :
  map (ToString (H := Reference.engine))
    [JArr [JNull; JNum (Number.of_Z 5); JArr [JStr "a"; JBool true]];
     JObj [("msg", JStr "field required")];
     JObj [("toString", JNum (Number.of_Z 1))];
     JArr [JStr "a"; JObj [("toString", JNull)]]]
  = [Ok ",5,a,true";
     Ok "[object Object]";
     Throw (ErrorInstance "Cannot convert object to primitive value");
     Throw (ErrorInstance "Cannot convert object to primitive value")].
Proof. vm_compute. reflexivity. Qed.

Example trim_examples :
  map JsString.trim ["  cpu usage "; "   "; ""] = ["cpu usage"; ""; ""].
Proof. reflexivity. Qed.

(** ** Runs of the submit handler *)

Import Index.

Ltac step_handler :=
  unfold clear_cells, try_block, catch_block, finally_block, fetch,
    setLoading, setError, setResponse, write, emit, lift, throw,
    try_catch_finally, mbind, M_bind, mret, M_ret;
  cbn -[getApiUrl JsString.JSON_stringify_1 String.append ToString
        millis new_Error Get js_or errorMessage].

Section HandlerFacts.
Context `{Engine}.
Variable env : gmap string string.
Variable net : Network.

Lemma blank_falsy (q : string) :
  blank q -> ToBoolean (JStr (JsString.trim q)) = false.
Proof. unfold blank. intros ->. reflexivity. Qed.

Lemma not_blank_truthy (q : string) :
  ~ blank q -> ToBoolean (JStr (JsString.trim q)) = true.
Proof.
  unfold blank. intros Hq. simpl.
  apply negb_true_iff, String.eqb_neq. exact Hq.
Qed.

Lemma run_blank (st : State) :
  blank (query st) ->
  run env net st = (Ok tt, {| cells := st; trace := [PreventDefault] |}).
Proof.
  intros Hq. unfold run, handleSubmit. cbn [cells].
  rewrite (blank_falsy _ Hq). reflexivity.
Qed.

Ltac past_guard Hq Hnet :=
  unfold run, handleSubmit; cbn [cells];
  rewrite (not_blank_truthy _ Hq); step_handler;
  unfold request_url, request_init in Hnet; rewrite Hnet.

Lemma run_rejected (st : State) (t : Thrown) :
  ~ blank (query st) ->
  net (request_url env) (request_init (query st)) = Throw t ->
  run env net st = failed env st (errorMessage t).
Proof. intros Hq Hnet. past_guard Hq Hnet. reflexivity. Qed.

Lemma run_success (st : State) (data : JsValue) (ms : string) :
  ~ blank (query st) ->
  net (request_url env) (request_init (query st)) = Ok (Success (Ok data)) ->
  millis data = Ok ms ->
  run env net st = succeeded env st data ms.
Proof.
  intros Hq Hnet Hms. past_guard Hq Hnet. step_handler.
  rewrite Hms. reflexivity.
Qed.

Lemma run_failed_after_store (st : State) (data : JsValue) (t : Thrown) :
  ~ blank (query st) ->
  net (request_url env) (request_init (query st)) = Ok (Success (Ok data)) ->
  millis data = Throw t ->
  run env net st = failed_after_store env st data (errorMessage t).
Proof.
  intros Hq Hnet Hms. past_guard Hq Hnet. step_handler.
  rewrite Hms. reflexivity.
Qed.

Lemma run_success_unreadable (st : State) (t : Thrown) :
  ~ blank (query st) ->
  net (request_url env) (request_init (query st)) = Ok (Success (Throw t)) ->
  run env net st = failed env st (errorMessage t).
Proof. intros Hq Hnet. past_guard Hq Hnet. reflexivity. Qed.

Lemma run_not_ok (st : State) (json : Outcome JsValue) :
  ~ blank (query st) ->
  net (request_url env) (request_init (query st)) = Ok (NotOk json) ->
  run env net st = failed env st (not_ok_message json).
Proof.
  intros Hq Hnet. past_guard Hq Hnet.
  unfold not_ok_message.
  destruct json as [errorData|t]; [|reflexivity].
  step_handler.
  destruct (Get errorData "detail") as [detail|t]; [|reflexivity].
  unfold js_or.
  destruct (ToBoolean detail) eqn:Htruthy; step_handler.
  - assert (Hnew : new_Error detail
                   = obind (ToString detail)
                       (fun message => Ok (ErrorInstance message))).
    { by destruct detail. }
    rewrite Hnew. by destruct (ToString detail).
  - reflexivity.
Qed.

(** A run past the guard ends in one of three shapes: it stored the body
    and announced it, it stored the body and failed on the announcement,
    or it failed before it had a body to store. *)
Lemma run_cases (st : State) :
  ~ blank (query st) ->
  (exists data ms,
     net (request_url env) (request_init (query st))
       = Ok (Success (Ok data)) /\
     millis data = Ok ms /\
     run env net st = succeeded env st data ms) \/
  (exists data t,
     net (request_url env) (request_init (query st))
       = Ok (Success (Ok data)) /\
     millis data = Throw t /\
     run env net st = failed_after_store env st data (errorMessage t)) \/
  (exists message,
     (forall data,
        net (request_url env) (request_init (query st))
          <> Ok (Success (Ok data))) /\
     run env net st = failed env st message).
Proof.
  intros Hq.
  destruct (net (request_url env) (request_init (query st)))
    as [[[data|t]|json]|t] eqn:Hnet.
  - destruct (millis data) as [ms|t] eqn:Hms.
    + left. eauto 6 using run_success.
    + right. left. eauto 6 using run_failed_after_store.
  - right. right. exists (errorMessage t).
    split; [done|]. by apply run_success_unreadable.
  - right. right. exists (not_ok_message json).
    split; [done|]. by apply run_not_ok.
  - right. right. exists (errorMessage t).
    split; [done|]. by apply run_rejected.
Qed.

(** *** Bodies of the declared type *)

Lemma Get_sentence (r : QueryResponse) :
  Get (to_json r) "natural_language_response"
    = Ok (JStr (natural_language_response r)).
Proof. reflexivity. Qed.

Lemma Get_promql (r : QueryResponse) :
  Get (to_json r) "promql_query" = Ok (JStr (promql_query r)).
Proof. reflexivity. Qed.

Lemma Get_raw_data (r : QueryResponse) :
  Get (to_json r) "raw_data" = Ok (raw_data r).
Proof. reflexivity. Qed.

Lemma Get_grafana_url (r : QueryResponse) :
  Get (to_json r) "grafana_url" = Ok (grafana_url_value r).
Proof.
  unfold to_json, grafana_url_value. by destruct (grafana_url r).
Qed.

Lemma Get_execution_time (r : QueryResponse) :
  Get (to_json r) "execution_time" = Ok (JNum (execution_time r)).
Proof. unfold to_json. by destruct (grafana_url r). Qed.

Lemma millis_to_json (r : QueryResponse) :
  millis (to_json r)
    = Ok (Number_toFixed0
            (Number.mul (execution_time r) (Number.of_Z 1000))).
Proof. unfold millis. by rewrite Get_execution_time. Qed.

End HandlerFacts.

(** ** What is rendered *)

Section RenderFacts.
Context `{Engine}.

Lemma Get_returns (v : JsValue) (name : string) :
  nullish v = false -> returns (Get v name).
Proof.
  unfold returns. destruct v; simpl; intros Hv; try discriminate; eauto.
  - destruct (String.eqb name "length"); eauto.
  - destruct (String.eqb name "length"); eauto.
Qed.

Lemma GetOpt_returns (v : JsValue) (name : string) :
  returns (GetOpt v name).
Proof.
  unfold GetOpt. destruct (nullish v) eqn:Hv.
  - by exists JUndefined.
  - by apply Get_returns.
Qed.

Lemma truthy_not_nullish (v : JsValue) :
  ToBoolean v = true -> nullish v = false.
Proof. by destruct v. Qed.

Lemma GetOpt_nullish (v : JsValue) (name : string) :
  nullish v = true -> GetOpt v name = Ok JUndefined.
Proof. unfold GetOpt. by intros ->. Qed.

Lemma GetOpt_present (v : JsValue) (name : string) :
  nullish v = false -> GetOpt v name = Get v name.
Proof. unfold GetOpt. by intros ->. Qed.

Lemma Get_nullish_throws (v : JsValue) (name : string) (x : JsValue) :
  Get v name = Ok x -> nullish v = false.
Proof. by destruct v. Qed.

Lemma data_points_returns (raw : JsValue) : returns (data_points raw).
Proof.
  unfold data_points.
  destruct (GetOpt_returns raw "result") as [result ->]. simpl.
  destruct (GetOpt_returns result "length") as [len ->]. simpl.
  unfold js_or, returns. destruct (ToBoolean len); eauto.
Qed.

(** The second, unguarded access of line 265 is only evaluated behind a
    truthy first operand, which makes it safe: what is left to go wrong
    is the comparison. *)
Lemma raw_data_condition_accesses (raw : JsValue) :
  (exists guard,
     GetOpt raw "result" = Ok guard /\ ToBoolean guard = false /\
     raw_data_condition raw = Ok guard) \/
  (exists result len,
     Get raw "result" = Ok result /\ ToBoolean result = true /\
     Get result "length" = Ok len /\
     raw_data_condition raw
       = obind (ToNumber len)
           (fun n => Ok (JBool (Number.gt n Number.zero)))).
Proof.
  unfold raw_data_condition.
  destruct (GetOpt_returns raw "result") as [guard Hguard].
  rewrite Hguard. simpl. unfold js_and.
  destruct (ToBoolean guard) eqn:Htruthy; [|left; by exists guard].
  right. destruct (nullish raw) eqn:Hraw.
  - rewrite GetOpt_nullish in Hguard by done.
    injection Hguard as <-. discriminate.
  - rewrite GetOpt_present in Hguard by done. rewrite Hguard. simpl.
    destruct (Get_returns guard "length" (truthy_not_nullish _ Htruthy))
      as [len Hlen].
    rewrite Hlen. simpl. by exists guard, len.
Qed.

Lemma data_points_absent (raw : JsValue) :
  nullish raw = true \/
  (exists result, Get raw "result" = Ok result /\ nullish result = true) ->
  data_points raw = Ok (JNum Number.zero).
Proof.
  unfold data_points. intros [Hraw|(result & Hget & Hresult)].
  - by rewrite GetOpt_nullish.
  - rewrite GetOpt_present, Hget by eauto using Get_nullish_throws.
    simpl. by rewrite GetOpt_nullish.
Qed.

Lemma raw_data_condition_absent (raw : JsValue) :
  nullish raw = true \/
  (exists result, Get raw "result" = Ok result /\ nullish result = true) ->
  exists cond, raw_data_condition raw = Ok cond /\ ToBoolean cond = false.
Proof.
  unfold raw_data_condition. intros [Hraw|(result & Hget & Hresult)].
  - rewrite GetOpt_nullish by done. by exists JUndefined.
  - rewrite GetOpt_present, Hget by eauto using Get_nullish_throws.
    simpl. unfold js_and. exists result.
    by destruct result.
Qed.

Lemma data_points_present (raw result len : JsValue) :
  Get raw "result" = Ok result -> nullish result = false ->
  Get result "length" = Ok len ->
  data_points raw = Ok (if ToBoolean len then len else JNum Number.zero).
Proof.
  intros Hget Hresult Hlen. unfold data_points.
  rewrite GetOpt_present, Hget by eauto using Get_nullish_throws.
  simpl. rewrite GetOpt_present, Hlen by done.
  simpl. unfold js_or. by destruct (ToBoolean len).
Qed.

Lemma data_points_array (raw : JsValue) (elems : list JsValue) :
  Get raw "result" = Ok (JArr elems) ->
  data_points raw = Ok (JNum (Number.of_nat (length elems))).
Proof.
  intros Hget. unfold data_points.
  rewrite GetOpt_present, Hget by eauto using Get_nullish_throws.
  simpl. unfold js_or. simpl ToBoolean. rewrite of_nat_truthy.
  by destruct elems.
Qed.

Lemma raw_data_condition_array (raw : JsValue) (elems : list JsValue) :
  Get raw "result" = Ok (JArr elems) ->
  raw_data_condition raw = Ok (JBool (Nat.ltb 0 (length elems))).
Proof.
  intros Hget. unfold raw_data_condition.
  rewrite GetOpt_present, Hget by eauto using Get_nullish_throws.
  simpl. by rewrite of_nat_gt_zero.
Qed.

Lemma raw_data_condition_truthy (raw cond : JsValue) :
  raw_data_condition raw = Ok cond -> ToBoolean cond = true ->
  exists result len n,
    Get raw "result" = Ok result /\ nullish result = false /\
    Get result "length" = Ok len /\ ToNumber len = Ok n /\
    Number.gt n Number.zero = true.
Proof.
  intros Hcond Htruthy.
  destruct (raw_data_condition_accesses raw)
    as [(guard & _ & Hfalsy & Hguard)|(result & len & Hget & Hg & Hlen & Heq)].
  - rewrite Hguard in Hcond. injection Hcond as <-. congruence.
  - rewrite Heq in Hcond.
    destruct (ToNumber len) as [n|t] eqn:Hn; [|discriminate].
    simpl in Hcond. injection Hcond as <-. simpl in Htruthy.
    exists result, len, n. eauto 6 using truthy_not_nullish.
Qed.

(** With a [raw_data] of the shape the store gives, both expressions have
    a value, and the Data Points value is a number. *)
Lemma plain_result_renders (raw : JsValue) :
  plain_result raw ->
  exists points cond,
    data_points raw = Ok points /\ valid_child points = true /\
    raw_data_condition raw = Ok cond.
Proof.
  intros [Hraw|(result & Hget & [Hresult|[elems ->]])].
  - rewrite data_points_absent by eauto.
    destruct (raw_data_condition_absent raw) as (cond & -> & _); eauto.
  - rewrite data_points_absent by eauto.
    destruct (raw_data_condition_absent raw) as (cond & -> & _); eauto.
  - rewrite (data_points_array raw elems Hget).
    rewrite (raw_data_condition_array raw elems Hget). eauto.
Qed.

(** The cards of a body of the declared type: what can go wrong is the
    comparison of line 265 and the Data Points child. *)
Lemma render_answer_to_json (r : QueryResponse) :
  render_answer (to_json r) =
    obind (data_points (raw_data r)) (fun points =>
    obind (raw_data_condition (raw_data r)) (fun cond =>
    obind (check_child points) (fun _ =>
    Ok (typed_cards r points cond)))).
Proof.
  unfold render_answer, answer_tree, execution_label.
  rewrite Get_sentence, Get_promql, millis_to_json, Get_raw_data,
    Get_grafana_url.
  cbn [obind].
  destruct (data_points (raw_data r)) as [points|t]; [|done]. cbn [obind].
  destruct (raw_data_condition (raw_data r)) as [cond|t]; [|done].
  cbn [obind]. unfold React_accepts, typed_cards.
  cbn [answer_text promql_code data_points_badge grafana_button check_child
       valid_child obind].
  destruct (check_child points) as [[]|t]; [|done]. cbn [obind].
  unfold grafana_url_value, when.
  destruct (grafana_url r) as [url|]; [|done].
  cbn [ToBoolean]. by destruct (negb (String.eqb url "")).
Qed.

Lemma render_answer_plain (r : QueryResponse) :
  plain_result (raw_data r) ->
  exists points cond,
    data_points (raw_data r) = Ok points /\
    raw_data_condition (raw_data r) = Ok cond /\
    render_answer (to_json r) = Ok (typed_cards r points cond).
Proof.
  intros Hplain. rewrite render_answer_to_json.
  destruct (plain_result_renders _ Hplain)
    as (points & cond & Hpoints & Hvalid & Hcond).
  exists points, cond. rewrite Hpoints, Hcond. cbn [obind].
  unfold check_child. by rewrite Hvalid.
Qed.

Lemma render_answer_typed (r : QueryResponse) (cards : AnswerCards) :
  render_answer (to_json r) = Ok cards ->
  exists points cond,
    data_points (raw_data r) = Ok points /\
    raw_data_condition (raw_data r) = Ok cond /\
    cards = typed_cards r points cond.
Proof.
  rewrite render_answer_to_json.
  destruct (data_points (raw_data r)) as [points|t]; [|done]. cbn [obind].
  destruct (raw_data_condition (raw_data r)) as [cond|t]; [|done].
  cbn [obind]. destruct (check_child points) as [[]|t]; [|done].
  cbn [obind]. intros [= <-]. eauto.
Qed.

(** With no response, the page renders whatever the other cells hold. *)
Lemma render_falsy (st : State) :
  ToBoolean (response st) = false ->
  render st =
    Ok {| input_disabled := loading st;
          submit_disabled := submit_button_disabled st;
          submit_label :=
            if loading st then "Analyzing..." else "Ask Question";
          error_alert :=
            match error st with
            | Some e => when (JStr e) e
            | None => Value JNull
            end;
          answer_cards := Value (response st) |}.
Proof. unfold render. by intros ->. Qed.

Lemma render_controls (st : State) (view : View) :
  render st = Ok view ->
  input_disabled view = loading st /\
  submit_disabled view = submit_button_disabled st /\
  submit_label view
    = (if loading st then "Analyzing..." else "Ask Question") /\
  error_alert view =
    match error st with
    | Some e => when (JStr e) e
    | None => Value JNull
    end.
Proof.
  unfold render.
  destruct (if ToBoolean (response st) then _ else _) as [cards|t];
    [|done].
  cbn [obind]. by intros [= <-].
Qed.

End RenderFacts.

(** ** Properties of the page *)

(** C9. [getApiUrl] depends on the build-time environment only through
    [VITE_API_URL]: it is that value when the variable is set and not
    empty, and [http://localhost:8000] when it is unset or empty; two
    environments that agree on the variable give the same endpoint. *)
Theorem getApiUrl_configured (env : gmap string string) :
  (forall url, env !! "VITE_API_URL" = Some url -> url <> "" ->
     getApiUrl env = url) /\
  (env !! "VITE_API_URL" = None \/ env !! "VITE_API_URL" = Some "" ->
     getApiUrl env = "http://localhost:8000") /\
  (forall env' : gmap string string,
     env' !! "VITE_API_URL" = env !! "VITE_API_URL" ->
     getApiUrl env' = getApiUrl env).
Proof.
  unfold getApiUrl, string_or. split_and!.
  - intros url -> Hurl. by apply String.eqb_neq in Hurl as ->.
  - by intros [->| ->].
  - by intros env' ->.
Qed.

Lemma getApiUrl_configured_witness :
  getApiUrl (<["VITE_API_URL" := "https://metrics.example.com"]> ∅)
    = "https://metrics.example.com" /\
  getApiUrl (<["NODE_ENV" := "development"]> ∅) = "http://localhost:8000" /\
  getApiUrl (<["VITE_API_URL" := ""]> ∅) = "http://localhost:8000".
Proof.
  split_and!.
  - apply (proj1 (getApiUrl_configured _)); [reflexivity|discriminate].
  - apply (proj1 (proj2 (getApiUrl_configured _))). left. reflexivity.
  - apply (proj1 (proj2 (getApiUrl_configured _))). right. reflexivity.
Defined.

(** C4. When the question is empty after trimming, a run of the submit
    handler sends no request and leaves every cell as it was: its only
    effect is [preventDefault]; the submit button is disabled in that
    state. *)
Theorem blank_question_is_ignored `{Engine}
    (env : gmap string string) (net : Network) (st : State) :
  blank (query st) ->
  after env net st = st /\
  effects env net st = [PreventDefault] /\
  requests env net st = [] /\
  submit_button_disabled st = true /\
  (forall view, render st = Ok view -> submit_disabled view = true) /\
  (ToBoolean (response st) = false \/ returns (render_answer (response st)) ->
   exists view, render st = Ok view /\ submit_disabled view = true).
Proof.
  intros Hq. unfold after, requests, effects.
  rewrite run_blank by done.
  assert (Hdisabled : submit_button_disabled st = true).
  { unfold submit_button_disabled. rewrite (blank_falsy _ Hq).
    by destruct (loading st). }
  split_and!; try done.
  - intros view Hview.
    by destruct (render_controls st view Hview) as (_ & -> & _).
  - intros [Hnone|[cards Hcards]].
    + rewrite render_falsy by done. by eexists.
    + unfold render. rewrite Hcards.
      destruct (ToBoolean (response st)); by eexists.
Qed.

Lemma blank_question_is_ignored_witness :
  let st := setQuery "   " initial in
  let net : Network := fun _ _ => Throw (ErrorInstance "Failed to fetch") in
  after (H := Reference.engine) ∅ net st = st /\
  effects (H := Reference.engine) ∅ net st = [PreventDefault] /\
  requests (H := Reference.engine) ∅ net st = [] /\
  exists view,
    render (H := Reference.engine) st = Ok view /\
    submit_disabled view = true.
Proof.
  intros st net.
  destruct (blank_question_is_ignored (H := Reference.engine) ∅ net st)
    as (Hafter & Heffects & Hrequests & _ & _ & Hview).
  { reflexivity. }
  split_and!; [exact Hafter|exact Heffects|exact Hrequests|].
  apply Hview. left. reflexivity.
Defined.

(** *** The body of the request reads back *)

#[local] Arguments String.append !s1 s2 : simpl nomatch.

Lemma append_assoc (a b c : string) : (a ++ b) ++ c = a ++ (b ++ c).
Proof. induction a as [|x a IH]; simpl; congruence. Qed.

Lemma read_chars_escape_char (c : Ascii.ascii) (u : string) :
  JsString.read_chars (JsString.escape_char c ++ u)
    = JsString.cons_fst c (JsString.read_chars u).
Proof.
  destruct c as [[] [] [] [] [] [] [] []]; reflexivity.
Qed.

Lemma read_chars_escape (s t : string) :
  JsString.read_chars (JsString.escape s ++ JsString.dquote ++ t)
    = Some (s, t).
Proof.
  induction s as [|c s IH]; [reflexivity|].
  cbn [JsString.escape].
  by rewrite append_assoc, read_chars_escape_char, IH.
Qed.

Lemma read_string_quote (s t : string) :
  JsString.read_string (JsString.QuoteJSONString s ++ t) = Some (s, t).
Proof.
  unfold JsString.QuoteJSONString.
  rewrite append_assoc. cbn [JsString.dquote String.append].
  unfold JsString.read_string. cbn [Ascii.nat_of_ascii].
  change (Nat.eqb (Ascii.nat_of_ascii (Ascii.ascii_of_nat 34)) 34) with true.
  cbn iota. rewrite append_assoc. apply read_chars_escape.
Qed.

Lemma read_object_1_stringify (key value : string) :
  JsString.read_object_1 (JsString.JSON_stringify_1 key value)
    = Some (key, value).
Proof.
  unfold JsString.JSON_stringify_1, JsString.read_object_1.
  cbn [String.append]. rewrite read_string_quote.
  cbn [String.append]. by rewrite read_string_quote.
Qed.

Section HandlerClaims.
Context `{Engine}.
Variable env : gmap string string.


Lemma blank_dec (q : string) : {blank q} + {~ blank q}.
Proof. unfold blank. apply String.string_dec. Qed.


(** C3, as amended. For a response that is not ok, the run ends with no
    response, with loading off and with an error message that is also
    shown in a toast; no answer is rendered. When the body is a JSON
    object whose [detail] is a string that is not empty, the message is
    that string verbatim and the alert shows it; when [detail] is absent
    or falsy (so also for the empty string), the message is
    [Query failed]. *)
Theorem not_ok_response_is_reported
    (net : Network) (st : State) (json : Outcome JsValue) :
  ~ blank (query st) ->
  net (request_url env) (request_init (query st)) = Ok (NotOk json) ->
  response (after env net st) = JNull /\
  loading (after env net st) = false /\
  (exists message,
     error (after env net st) = Some message /\
     ShowToast {| title := "Query failed"; description := message;
                  variant := Some "destructive" |}
       ∈ effects env net st) /\
  (exists view,
     render (after env net st) = Ok view /\
     shown (answer_cards view) = false) /\
  (forall props detail,
     json = Ok (JObj props) -> lookup_prop "detail" props = JStr detail ->
     detail <> "" ->
     error (after env net st) = Some detail /\
     exists view,
       render (after env net st) = Ok view /\
       error_alert view = Element detail) /\
  (forall errorData detail,
     json = Ok errorData -> Get errorData "detail" = Ok detail ->
     ToBoolean detail = false ->
     error (after env net st) = Some "Query failed").
Proof.
  intros Hq Hnet. unfold after, effects.
  rewrite (run_not_ok env net st json Hq Hnet). simpl.
  split_and!; try done.
  - eexists. split; [done|]. unfold failure_toast. set_solver.
  - rewrite render_falsy by done. by eexists.
  - intros props detail -> Hdetail Hne. simpl. rewrite Hdetail. simpl.
    apply String.eqb_neq in Hne. rewrite Hne. simpl.
    split; [done|]. rewrite render_falsy by done.
    eexists. split; [done|]. simpl.
    unfold when. simpl. by rewrite Hne.
  - intros errorData detail -> Hdetail Hfalsy. simpl.
    by rewrite Hdetail, Hfalsy.
Qed.

(** C5. A run past the guard sends exactly one request: a POST to
    [/query] under the configured base, with the JSON content type and a
    body that is the JSON object holding the question under the key
    [query], as reading the body back shows. When the response is ok and
    its body readable, the handler stores that one body whole, in a
    single call of [setResponse] after the clearing one; for a body of
    the declared type that is the one [QueryResponse] record (its
    sentence, its query, its raw data, its optional link and its
    execution time). *)
Theorem one_post_per_question (net : Network) (st : State) :
  ~ blank (query st) ->
  requests env net st =
    [(getApiUrl env ++ "/query",
      {| method := "POST";
         headers := [("Content-Type", "application/json")];
         body := JsString.JSON_stringify_1 "query" (query st) |})] /\
  JsString.read_object_1 (JsString.JSON_stringify_1 "query" (query st))
    = Some ("query", query st) /\
  (forall data,
     net (request_url env) (request_init (query st))
       = Ok (Success (Ok data)) ->
     response (after env net st) = data /\
     responses_set env net st = [JNull; data]) /\
  (forall r : QueryResponse,
     net (request_url env) (request_init (query st))
       = Ok (Success (Ok (to_json r))) ->
     response (after env net st) =
       to_json {| natural_language_response := natural_language_response r;
                  promql_query := promql_query r;
                  raw_data := raw_data r;
                  grafana_url := grafana_url r;
                  execution_time := execution_time r |} /\
     responses_set env net st = [JNull; to_json r]).
Proof.
  intros Hq.
  assert (Hstore : forall data,
    net (request_url env) (request_init (query st))
      = Ok (Success (Ok data)) ->
    response (after env net st) = data /\
    responses_set env net st = [JNull; data]).
  { intros data Hnet. unfold after, responses_set, effects.
    destruct (millis data) as [ms|t] eqn:Hms.
    - by rewrite (run_success env net st data ms Hq Hnet Hms).
    - by rewrite (run_failed_after_store env net st data t Hq Hnet Hms). }
  split_and!.
  - unfold requests, effects.
    by destruct (run_cases env net st Hq)
      as [(data & ms & _ & _ & ->)
         |[(data & t & _ & _ & ->)|(message & _ & ->)]].
  - apply read_object_1_stringify.
  - exact Hstore.
  - intros r Hnet. destruct (Hstore _ Hnet) as [-> ->]. by destruct r.
Qed.

End HandlerClaims.



(** Against C3 as it is worded: a response with an error status whose
    [detail] field is present and is the empty string ends with the
    error [Query failed], not with the detail. *)
Lemma empty_detail_is_replaced :
  let net := Sample.replies_detail (JStr "") in
  Get (H := Reference.engine) (JObj [("detail", JStr "")]) "detail"
    = Ok (JStr "") /\
  error (after (H := Reference.engine) ∅ net Sample.asked)
    = Some "Query failed" /\
  error (after (H := Reference.engine) ∅ net Sample.asked) <> Some "".
Proof. split_and!; [reflexivity|reflexivity|discriminate]. Qed.

Lemma not_ok_response_is_reported_witness :
  let net := Sample.replies_detail (JStr "Unable to connect to Prometheus") in
  let st := after (H := Reference.engine) ∅ net Sample.asked in
  response st = JNull /\
  error st = Some "Unable to connect to Prometheus".
Proof.
  intros net st.
  assert (asked_not_blank : ~ blank (query Sample.asked)).
  { unfold blank. vm_compute. discriminate. }
  destruct (not_ok_response_is_reported (H := Reference.engine) ∅ net
              Sample.asked
              (Ok (JObj [("detail", JStr "Unable to connect to Prometheus")]))
              asked_not_blank eq_refl)
    as (Hresponse & _ & _ & _ & Hdetail & _).
  split; [exact Hresponse|].
  apply (Hdetail _ _ eq_refl eq_refl). discriminate.
Defined.

Lemma one_post_per_question_witness :
  requests (H := Reference.engine) ∅ Sample.replies_ok Sample.asked =
    [("http://localhost:8000/query",
      {| method := "POST";
         headers := [("Content-Type", "application/json")];
         body := JsString.JSON_stringify_1 "query"
                   "What's the average CPU usage?" |})].
Proof.
  assert (asked_not_blank : ~ blank (query Sample.asked)).
  { unfold blank. vm_compute. discriminate. }
  exact (proj1 (one_post_per_question (H := Reference.engine) ∅
                  Sample.replies_ok Sample.asked asked_not_blank)).
Defined.

Section RenderClaims.
Context `{Engine}.

(** C10, as amended. The accesses to the result never throw: the Data
    Points expression always has a value, which is [result.length], or 0
    when that is falsy or when [raw_data] or [raw_data.result] is absent;
    and the condition of the Raw Data panel reads [result] and [length]
    only behind a truthy [raw_data?.result]. When [raw_data.result] is an
    array, the answer renders, the Data Points badge holds its length and
    the Raw Data panel is rendered exactly when the array is not empty;
    when [raw_data] or [raw_data.result] is absent, the answer renders,
    the badge holds 0 and the panel is not rendered; and the panel is
    only ever rendered when [raw_data.result] is present with a length
    above 0. *)
Theorem result_access_guarded (r : QueryResponse) :
  (exists points,
     data_points (raw_data r) = Ok points /\
     forall result len,
       Get (raw_data r) "result" = Ok result -> nullish result = false ->
       Get result "length" = Ok len ->
       points = if ToBoolean len then len else JNum Number.zero) /\
  ((exists guard,
      GetOpt (raw_data r) "result" = Ok guard /\ ToBoolean guard = false /\
      raw_data_condition (raw_data r) = Ok guard) \/
   (exists result len,
      Get (raw_data r) "result" = Ok result /\ ToBoolean result = true /\
      Get result "length" = Ok len /\
      raw_data_condition (raw_data r)
        = obind (ToNumber len)
            (fun n => Ok (JBool (Number.gt n Number.zero))))) /\
  (forall elems,
     Get (raw_data r) "result" = Ok (JArr elems) ->
     exists cards,
       render_answer (to_json r) = Ok cards /\
       data_points_badge cards = JNum (Number.of_nat (length elems)) /\
       shown (raw_data_panel cards) = Nat.ltb 0 (length elems)) /\
  (nullish (raw_data r) = true \/
   (exists result,
      Get (raw_data r) "result" = Ok result /\ nullish result = true) ->
   exists cards,
     render_answer (to_json r) = Ok cards /\
     data_points_badge cards = JNum Number.zero /\
     shown (raw_data_panel cards) = false) /\
  (forall cards,
     render_answer (to_json r) = Ok cards ->
     shown (raw_data_panel cards) = true ->
     exists result len n,
       Get (raw_data r) "result" = Ok result /\ nullish result = false /\
       Get result "length" = Ok len /\ ToNumber len = Ok n /\
       Number.gt n Number.zero = true).
Proof.
  split_and!.
  - destruct (data_points_returns (raw_data r)) as [points Hpoints].
    exists points. split; [done|]. intros result len Hget Hresult Hlen.
    rewrite (data_points_present _ result len Hget Hresult Hlen) in Hpoints.
    by injection Hpoints as <-.
  - apply raw_data_condition_accesses.
  - intros elems Hget.
    destruct (render_answer_plain r) as (points & cond & Hp & Hc & ->).
    { right. exists (JArr elems). eauto. }
    rewrite (data_points_array _ elems Hget) in Hp.
    rewrite (raw_data_condition_array _ elems Hget) in Hc.
    injection Hp as <-. injection Hc as <-.
    eexists. split; [done|]. split; [done|]. simpl. unfold when. simpl.
    by destruct (Nat.ltb 0 (length elems)).
  - intros Habsent.
    destruct (render_answer_plain r) as (points & cond & Hp & Hc & ->).
    { destruct Habsent as [?|(result & ? & ?)]; [by left|].
      right. exists result. eauto. }
    rewrite (data_points_absent _ Habsent) in Hp.
    destruct (raw_data_condition_absent _ Habsent) as (cond' & Hc' & Hfalsy).
    rewrite Hc' in Hc. injection Hp as <-. injection Hc as <-.
    eexists. split; [done|]. split; [done|]. simpl. unfold when.
    by rewrite Hfalsy.
  - intros cards Hcards Hshown.
    destruct (render_answer_typed r cards Hcards)
      as (points & cond & _ & Hcond & ->).
    simpl in Hshown. unfold when in Hshown.
    destruct (ToBoolean cond) eqn:Htruthy; [|done].
    by apply (raw_data_condition_truthy (raw_data r) cond).
Qed.

Lemma render_answer_frame (r : QueryResponse) (url : option string) :
  returns (render_answer (to_json r)) ->
  returns (render_answer (to_json (with_grafana_url url r))).
Proof.
  rewrite !render_answer_to_json. cbn [with_grafana_url raw_data].
  destruct (data_points (raw_data r)) as [points|t];
    [|by intros [? ?]]. cbn [obind].
  destruct (raw_data_condition (raw_data r)) as [cond|t];
    [|by intros [? ?]]. cbn [obind].
  destruct (check_child points) as [[]|t]; [|by intros [? ?]].
  intros _. by eexists.
Qed.

(** C6, as amended. Whether an answer renders does not depend on its
    [grafana_url], and it does render when [raw_data.result] is absent or
    an array. A rendered answer has its sentence and its query; without a
    [grafana_url], and also with an empty one, it has no link; with a
    [grafana_url] that is not empty, it has the link to it. *)
Theorem grafana_link_when_present (r : QueryResponse) :
  (forall url,
     returns (render_answer (to_json r)) <->
     returns (render_answer (to_json (with_grafana_url url r)))) /\
  (plain_result (raw_data r) -> returns (render_answer (to_json r))) /\
  (forall cards,
     render_answer (to_json r) = Ok cards ->
     answer_text cards = JStr (natural_language_response r) /\
     promql_code cards = JStr (promql_query r) /\
     (grafana_url r = None \/ grafana_url r = Some "" ->
      shown (grafana_button cards) = false) /\
     (forall url,
        grafana_url r = Some url -> url <> "" ->
        grafana_button cards = Element (JStr url))).
Proof.
  split_and!.
  - intros url. split; [apply render_answer_frame|].
    intros Hreturns.
    apply (render_answer_frame _ (grafana_url r)) in Hreturns.
    by destruct r.
  - intros Hplain.
    destruct (render_answer_plain r Hplain) as (points & cond & _ & _ & ->).
    by eexists.
  - intros cards Hcards.
    destruct (render_answer_typed r cards Hcards)
      as (points & cond & _ & _ & ->).
    simpl. unfold grafana_url_value. split_and!; try done.
    + by intros [->| ->].
    + intros url -> Hne. unfold when. simpl.
      apply String.eqb_neq in Hne. by rewrite Hne.
Qed.

End RenderClaims.

Lemma result_access_guarded_witness :
  exists cards,
    render_answer (H := Reference.engine) (to_json Sample.data) = Ok cards /\
    data_points_badge cards = JNum (Number.of_nat 2) /\
    shown (raw_data_panel cards) = true.
Proof.
  destruct (result_access_guarded (H := Reference.engine) Sample.data)
    as (_ & _ & Harray & _).
  apply (Harray [JObj [("value", JStr "45.2")];
                 JObj [("value", JStr "44.9")]]).
  reflexivity.
Defined.

(** Against C10 as it is worded: with a [result] that is present and has
    an object for its [length], the Data Points expression has that
    object for its value and React rejects it; when the object has an
    own [toString], the comparison of line 265 throws first. Either way
    the answer does not render. *)
Lemma object_length_crashes :
  let odd (len : JsValue) :=
    {| natural_language_response := "The CPU usage is currently 45.2%";
       promql_query := "rate(cpu_usage_percent[5m])";
       raw_data := JObj [("result", JObj [("length", len)])];
       grafana_url := None;
       execution_time := Number.zero |} in
  data_points (H := Reference.engine) (raw_data (odd (JObj [])))
    = Ok (JObj []) /\
  render_answer (H := Reference.engine) (to_json (odd (JObj [])))
    = Throw (ErrorInstance
               ("Objects are not valid as a React child " ++
                "(found: object with keys {}). If you meant to render " ++
                "a collection of children, use an array instead.")) /\
  render_answer (H := Reference.engine)
    (to_json (odd (JObj [("toString", JNum (Number.of_Z 1))])))
    = Throw (ErrorInstance "Cannot convert object to primitive value").
Proof. split_and!; reflexivity. Qed.

(** Against C6 as it is worded: an answer whose [grafana_url] is present
    and is the empty string renders without the link. *)
Lemma empty_grafana_url_gives_no_link :
  grafana_url Sample.data_empty_link = Some "" /\
  exists cards,
    render_answer (H := Reference.engine) (to_json Sample.data_empty_link)
      = Ok cards /\
    shown (grafana_button cards) = false.
Proof. split; [reflexivity|]. eexists. split; reflexivity. Qed.

Lemma grafana_link_when_present_witness :
  exists cards,
    render_answer (H := Reference.engine) (to_json Sample.data) = Ok cards /\
    grafana_button cards = Element (JStr "http://localhost:3000/explore").
Proof.
  destruct (grafana_link_when_present (H := Reference.engine) Sample.data)
    as (_ & Hplain & Hcards).
  destruct Hplain as [cards Hrender].
  { right. eexists. split; [reflexivity|]. right. by eexists. }
  exists cards. split; [exact Hrender|].
  apply (Hcards cards Hrender); [reflexivity|discriminate].
Defined.

(** ** Properties of the pipeline *)

Section PipelineClaims.
Import Pipeline.
Variable Pattern : Type.
Variable matches : Pattern -> string -> bool.
Variable classify : string -> QueryKind.
Variable phrase : QueryKind -> number -> string.
Variable no_data : QueryKind -> string.
Variable deep_link : string -> string -> string.
Variable config : Config.
Variable store : string -> string -> StoreReply.

Lemma first_match_earliest (rs : list (Rule Pattern)) (input : string) :
  forall j rj,
    rs !! j = Some rj -> matches (pattern rj) input = true ->
    exists i r,
      i <= j /\ rs !! i = Some r /\ matches (pattern r) input = true /\
      (forall k rk,
         k < i -> rs !! k = Some rk -> matches (pattern rk) input = false) /\
      first_match Pattern matches rs input = Some r.
Proof.
  induction rs as [|r0 rs IH]; intros j rj Hj Hmatch; [done|].
  simpl. destruct (matches (pattern r0) input) eqn:H0.
  - exists 0, r0. split_and!; [lia|done|done| |done].
    intros k rk Hk. lia.
  - destruct j as [|j]; simpl in Hj.
    { injection Hj as <-. congruence. }
    destruct (IH j rj Hj Hmatch) as (i & r & Hle & Hi & Hr & Hbefore & Hfirst).
    exists (S i), r. split_and!; [lia|done|done| |done].
    intros [|k] rk Hk Hrk; simpl in Hrk.
    + by injection Hrk as <-.
    + apply (Hbefore k); [lia|done].
Qed.

Lemma first_match_none (rs : list (Rule Pattern)) (input : string) :
  (forall r, r ∈ rs -> matches (pattern r) input = false) ->
  first_match Pattern matches rs input = None.
Proof.
  induction rs as [|r0 rs IH]; intros Hnone; [done|].
  simpl. rewrite (Hnone r0) by set_solver.
  apply IH. intros r Hr. apply Hnone. set_solver.
Qed.

(** C1. When some rule matches the question, [translate] returns the
    template (with the time window filled in) of the matching rule that
    comes first in the rule set: whichever matching rule one starts
    from, the rule used is at its position or before it, matches, and
    has no matching rule before it. *)
Theorem first_match_wins
    (rules : list (Rule Pattern)) (question : string) (j : nat)
    (rj : Rule Pattern) :
  rules !! j = Some rj ->
  matches (pattern rj) (lowercase question) = true ->
  exists i r,
    i <= j /\ rules !! i = Some r /\
    matches (pattern r) (lowercase question) = true /\
    (forall k rk,
       k < i -> rules !! k = Some rk ->
       matches (pattern rk) (lowercase question) = false) /\
    translate Pattern matches classify config rules question =
      inr (resolve (time_window config) (template r),
           classify (resolve (time_window config) (template r))).
Proof.
  intros Hj Hmatch.
  destruct (first_match_earliest rules (lowercase question) j rj Hj Hmatch)
    as (i & r & Hle & Hi & Hr & Hbefore & Hfirst).
  exists i, r. split_and!; try done.
  unfold translate. by rewrite Hfirst.
Qed.

(** C2. When no rule matches the question, [translate] fails with
    [UnrecognizedQuery] carrying the question as it was asked, and
    [answer] fails in the same way without sending anything to the
    store. *)
Theorem unrecognized_query_stops
    (rules : list (Rule Pattern)) (question : string) :
  (forall r, r ∈ rules -> matches (pattern r) (lowercase question) = false) ->
  translate Pattern matches classify config rules question
    = inl (UnrecognizedQuery question) /\
  forall sent,
    answer Pattern matches classify phrase no_data deep_link config rules
      store question sent
    = (inl (UnrecognizedQuery question), sent).
Proof.
  intros Hnone.
  assert (Htranslate :
    translate Pattern matches classify config rules question
      = inl (UnrecognizedQuery question)).
  { unfold translate. by rewrite first_match_none. }
  split; [done|]. intros sent. unfold answer. by rewrite Htranslate.
Qed.

End PipelineClaims.

Lemma first_match_wins_witness :
  exists i r,
    i <= 1 /\ Sample.rules !! i = Some r /\
    Pipeline.occurs (Pipeline.pattern r)
      (Pipeline.lowercase "What's the average CPU usage?") = true /\
    (forall k rk,
       k < i -> Sample.rules !! k = Some rk ->
       Pipeline.occurs (Pipeline.pattern rk)
         (Pipeline.lowercase "What's the average CPU usage?") = false) /\
    Pipeline.translate string Pipeline.occurs Sample.classify Sample.config
      Sample.rules "What's the average CPU usage?" =
      inr (Pipeline.resolve "5m" (Pipeline.template r),
           Sample.classify (Pipeline.resolve "5m" (Pipeline.template r))).
Proof.
  apply (first_match_wins string Pipeline.occurs Sample.classify
           Sample.config Sample.rules "What's the average CPU usage?" 1
           {| Pipeline.pattern := "usage";
              Pipeline.template := [Pipeline.Text "memory_usage_bytes"] |}).
  - reflexivity.
  - vm_compute. reflexivity.
Defined.

Lemma unrecognized_query_stops_witness :
  Pipeline.answer string Pipeline.occurs Sample.classify
    (fun _ _ => "") (fun _ => "No data found") (fun base q => base ++ q)
    Sample.config Sample.rules Sample.store "asdfjkl random text" []
  = (inl (Pipeline.UnrecognizedQuery "asdfjkl random text"), []).
Proof.
  apply (unrecognized_query_stops string Pipeline.occurs Sample.classify
           (fun _ _ => "") (fun _ => "No data found")
           (fun base q => base ++ q)
           Sample.config Sample.store Sample.rules "asdfjkl random text").
  intros r Hr. unfold Sample.rules in Hr.
  apply elem_of_cons in Hr as [->|Hr]; [vm_compute; reflexivity|].
  apply elem_of_cons in Hr as [->|Hr]; [vm_compute; reflexivity|].
  by apply elem_of_nil in Hr.
Defined.

(** * Further properties of the page *)

(** ** The guard of line 43 *)

Lemma trim_start_empty (s : string) :
  JsString.trim_start s = "" <-> JsString.all_white_space s = true.
Proof.
  induction s as [|c s IH]; simpl; [done|].
  destruct (JsString.is_white_space c); simpl; [exact IH|].
  split; discriminate.
Qed.

Lemma trim_start_head (s : string) :
  JsString.trim_start s = "" \/
  exists c rest,
    JsString.trim_start s = String c rest /\
    JsString.is_white_space c = false.
Proof.
  induction s as [|c s IH]; simpl; [by left|].
  destruct (JsString.is_white_space c) eqn:Hc; [exact IH|].
  right. by exists c, s.
Qed.

Lemma trim_end_head (c : Ascii.ascii) (rest : string) :
  JsString.is_white_space c = false ->
  JsString.trim_end (String c rest) <> "".
Proof.
  intros Hc. simpl. rewrite Hc.
  by destruct (JsString.trim_end rest).
Qed.

(** X1. The guard of the submit handler rejects exactly the questions
    made of white space only (the empty one among them). *)
Theorem blank_iff_all_white_space (q : string) :
  blank q <-> JsString.all_white_space q = true.
Proof.
  unfold blank, JsString.trim. rewrite <- trim_start_empty.
  destruct (trim_start_head q) as [->|(c & rest & -> & Hc)]; [done|].
  split; [|discriminate].
  intros Hempty. by destruct (trim_end_head c rest Hc).
Qed.

Lemma blank_iff_all_white_space_witness :
  blank (String (Ascii.ascii_of_nat 9) "  ") /\ ~ blank " cpu ".
Proof.
  split.
  - apply (proj2 (blank_iff_all_white_space _)). reflexivity.
  - intros Hblank.
    apply (proj1 (blank_iff_all_white_space _)) in Hblank. discriminate.
Defined.

(** ** The body of the request *)

Lemma no_control_app (a b : string) :
  JsString.no_control (a ++ b)
    = JsString.no_control a && JsString.no_control b.
Proof.
  induction a as [|c a IH]; simpl; [done|].
  rewrite IH. by rewrite andb_assoc.
Qed.

Lemma no_control_escape_char (c : Ascii.ascii) :
  JsString.no_control (JsString.escape_char c) = true.
Proof. destruct c as [[] [] [] [] [] [] [] []]; reflexivity. Qed.

Lemma no_control_escape (s : string) :
  JsString.no_control (JsString.escape s) = true.
Proof.
  induction s as [|c s IH]; [done|].
  cbn [JsString.escape].
  by rewrite no_control_app, no_control_escape_char, IH.
Qed.

(** X3. The body [JSON.stringify({ query })] determines the question: two
    different questions never have the same body. The body holds no
    control character, whatever the question holds. *)
Theorem request_body_faithful (q1 q2 : string) :
  (q1 <> q2 -> body (request_init q1) <> body (request_init q2)) /\
  JsString.no_control (body (request_init q1)) = true.
Proof.
  unfold request_init. cbn [body]. split.
  - intros Hne Hbody. apply Hne.
    pose proof (read_object_1_stringify "query" q1) as H1.
    rewrite Hbody, read_object_1_stringify in H1. congruence.
  - unfold JsString.JSON_stringify_1, JsString.QuoteJSONString.
    rewrite !no_control_app, !no_control_escape. reflexivity.
Qed.

Lemma request_body_faithful_witness :
  body (request_init "cpu usage") <> body (request_init "cpu usage ") /\
  JsString.no_control
    (body (request_init (String (Ascii.ascii_of_nat 10) "cpu"))) = true.
Proof.
  split.
  - apply (proj1 (request_body_faithful "cpu usage" "cpu usage ")).
    discriminate.
  - exact (proj2 (request_body_faithful _ "")).
Defined.

(** ** Every run of the handler *)

Section HandlerProperties.
Context `{Engine}.
Variable env : gmap string string.

(** X4. The handler catches everything: whatever the network does, a run
    returns without throwing, calls [preventDefault] before anything
    else, and leaves the question as it was. *)
Theorem handleSubmit_never_throws (net : Network) (st : State) :
  fst (run env net st) = Ok tt /\
  query (after env net st) = query st /\
  exists rest, effects env net st = PreventDefault :: rest.
Proof.
  unfold after, effects.
  destruct (blank_dec (query st)) as [Hq|Hq].
  - rewrite run_blank by done. simpl. eauto.
  - destruct (run_cases env net st Hq)
      as [(data & ms & _ & _ & ->)
         |[(data & t & _ & _ & ->)|(message & _ & ->)]]; simpl; eauto.
Qed.

(** X5. A run past the guard depends on the cells only through the
    question: the response, the error and the loading flag it starts
    from have no part in where it ends nor in what it does. *)
Theorem handleSubmit_forgets_previous_cells
    (net : Network) (st1 st2 : State) :
  ~ blank (query st1) -> query st2 = query st1 ->
  run env net st2 = run env net st1.
Proof.
  intros Hq Hsame.
  assert (Hq2 : ~ blank (query st2)) by by rewrite Hsame.
  destruct (net (request_url env) (request_init (query st1)))
    as [[[data|t]|json]|t] eqn:Hnet.
  - destruct (millis data) as [ms|t] eqn:Hms.
    + rewrite (run_success env net st1 data ms Hq Hnet Hms).
      rewrite (run_success env net st2 data ms Hq2)
        by (by rewrite ?Hsame).
      unfold succeeded, prologue. by rewrite Hsame.
    + rewrite (run_failed_after_store env net st1 data t Hq Hnet Hms).
      rewrite (run_failed_after_store env net st2 data t Hq2)
        by (by rewrite ?Hsame).
      unfold failed_after_store, prologue. by rewrite Hsame.
  - rewrite (run_success_unreadable env net st1 t Hq Hnet).
    rewrite (run_success_unreadable env net st2 t Hq2) by by rewrite Hsame.
    unfold failed, prologue. by rewrite Hsame.
  - rewrite (run_not_ok env net st1 json Hq Hnet).
    rewrite (run_not_ok env net st2 json Hq2) by by rewrite Hsame.
    unfold failed, prologue. by rewrite Hsame.
  - rewrite (run_rejected env net st1 t Hq Hnet).
    rewrite (run_rejected env net st2 t Hq2) by by rewrite Hsame.
    unfold failed, prologue. by rewrite Hsame.
Qed.

(** X6. A run past the guard does these things, in this order:
    [preventDefault], [loading := true], [error := null],
    [response := null], the one [fetch]; then the response alone, or the
    error alone, or the response and then the error; then one toast, and
    [loading := false]. The toast is the successful one, with the
    duration of the stored body, exactly when no error was written. The
    response is followed by the error exactly when the body was stored
    and its duration could not be computed: the error is then what that
    computation threw. *)
Theorem handleSubmit_effects_in_order (net : Network) (st : State) :
  ~ blank (query st) ->
  exists outcome t,
    effects env net st =
      ([PreventDefault; SetLoading true; SetError None; SetResponse JNull;
        Fetch (request_url env) (request_init (query st))] ++
       outcome ++ [ShowToast t; SetLoading false])%list /\
    ((exists data ms,
        outcome = [SetResponse data] /\ millis data = Ok ms /\
        t = {| title := "Query successful!";
               description := "Executed in " ++ ms ++ "ms";
               variant := None |}) \/
     (exists message,
        outcome = [SetError (Some message)] /\
        t = failure_toast message) \/
     (exists data thrown,
        outcome = [SetResponse data; SetError (Some (errorMessage thrown))] /\
        millis data = Throw thrown /\
        t = failure_toast (errorMessage thrown))).
Proof.
  intros Hq. unfold effects.
  destruct (run_cases env net st Hq)
    as [(data & ms & _ & Hms & ->)
       |[(data & t & _ & Hms & ->)|(message & _ & ->)]]; simpl.
  - exists [SetResponse data]. eexists. split; [done|]. left. eauto.
  - exists [SetResponse data; SetError (Some (errorMessage t))].
    eexists. split; [done|]. right. right. eauto.
  - exists [SetError (Some message)]. eexists. split; [done|].
    right. left. eauto.
Qed.

(** X7. When the request is rejected, or the body of the response cannot
    be read (whatever its status), the run ends with no response and with
    the message of the error that was thrown, or with [An error occurred]
    when what was thrown is not an [Error]. *)
Theorem thrown_error_is_reported (net : Network) (st : State) (t : Thrown) :
  ~ blank (query st) ->
  net (request_url env) (request_init (query st)) = Throw t \/
  net (request_url env) (request_init (query st)) = Ok (Success (Throw t)) \/
  net (request_url env) (request_init (query st)) = Ok (NotOk (Throw t)) ->
  response (after env net st) = JNull /\
  (forall message,
     t = ErrorInstance message ->
     error (after env net st) = Some message) /\
  (forall v,
     t = OtherValue v ->
     error (after env net st) = Some "An error occurred").
Proof.
  intros Hq Hnet. unfold after.
  assert (Hrun : run env net st = failed env st (errorMessage t)).
  { destruct Hnet as [Hnet|[Hnet|Hnet]].
    - by apply run_rejected.
    - by apply run_success_unreadable.
    - by rewrite (run_not_ok env net st _ Hq Hnet). }
  rewrite Hrun. simpl. split_and!; [done| |]; by intros ? ->.
Qed.

(** X8. For a response that is not ok whose body is JSON [null], the
    error is the engine's message for reading [detail] of [null], not
    [Query failed]; for a body that is an array, a string, a number or a
    boolean, which has no [detail], it is [Query failed]. *)
Theorem body_without_detail
    (net : Network) (st : State) (errorData : JsValue) :
  ~ blank (query st) ->
  net (request_url env) (request_init (query st))
    = Ok (NotOk (Ok errorData)) ->
  (errorData = JNull ->
   error (after env net st) = Some (nullish_access_message JNull "detail")) /\
  ((exists elems, errorData = JArr elems) \/
   (exists s, errorData = JStr s) \/
   (exists n, errorData = JNum n) \/
   (exists b, errorData = JBool b) ->
   error (after env net st) = Some "Query failed").
Proof.
  intros Hq Hnet. unfold after.
  rewrite (run_not_ok env net st _ Hq Hnet). simpl. split.
  - by intros ->.
  - by intros [[? ->]|[[? ->]|[[? ->]|[? ->]]]].
Qed.

(** X9. A [detail] that is truthy but not a string is reported as its
    JavaScript string when it has one: an object without a [toString] of
    its own as [[object Object]], an array of such objects as these
    joined by commas. An object with a [toString] of its own, which a
    JSON body can only give a value that is not a function, has no
    string: [new Error] throws, and the error reported is the engine's
    message for that. *)
Theorem structured_detail_is_stringified
    (net : Network) (st : State) (props : list (string * JsValue))
    (detail : JsValue) :
  ~ blank (query st) ->
  net (request_url env) (request_init (query st))
    = Ok (NotOk (Ok (JObj props))) ->
  lookup_prop "detail" props = detail -> ToBoolean detail = true ->
  (forall s, ToString detail = Ok s ->
     error (after env net st) = Some s) /\
  (forall t, ToString detail = Throw t ->
     error (after env net st) = Some (errorMessage t)) /\
  (forall fields, detail = JObj fields ->
     error (after env net st) =
       Some (if has_own "toString" fields
             then not_primitive_message detail
             else "[object Object]")) /\
  (forall fields1 fields2, detail = JArr [JObj fields1; JObj fields2] ->
     has_own "toString" fields1 = false ->
     has_own "toString" fields2 = false ->
     error (after env net st) = Some "[object Object],[object Object]").
Proof.
  intros Hq Hnet Hdetail Htruthy. unfold after.
  rewrite (run_not_ok env net st _ Hq Hnet).
  unfold not_ok_message. cbn [Get nullish]. rewrite Hdetail, Htruthy.
  cbn [failed snd cells error].
  split_and!.
  - by intros s ->.
  - by intros t ->.
  - intros fields ->. cbn [ToString].
    by destruct (has_own "toString" fields).
  - intros fields1 fields2 -> H1 H2. cbn [ToString]. by rewrite H1, H2.
Qed.

End HandlerProperties.

Lemma handleSubmit_forgets_previous_cells_witness :
  let stale :=
    {| query := "What's the average CPU usage?";
       response := to_json Sample.data_empty_link;
       loading := true;
       error := Some "Failed to fetch" |} in
  run (H := Reference.engine) ∅ Sample.replies_ok stale
    = run (H := Reference.engine) ∅ Sample.replies_ok Sample.asked.
Proof.
  intros stale.
  apply (handleSubmit_forgets_previous_cells (H := Reference.engine) ∅
           Sample.replies_ok Sample.asked stale).
  - unfold blank. vm_compute. discriminate.
  - reflexivity.
Defined.

Lemma handleSubmit_effects_in_order_witness :
  exists outcome t,
    effects (H := Reference.engine) ∅
      (Sample.replies_body Sample.body_odd_time) Sample.asked =
      ([PreventDefault; SetLoading true; SetError None; SetResponse JNull;
        Fetch (request_url ∅) (request_init (query Sample.asked))] ++
       outcome ++ [ShowToast t; SetLoading false])%list /\
    ((exists data ms,
        outcome = [SetResponse data] /\
        millis (H := Reference.engine) data = Ok ms /\
        t = {| title := "Query successful!";
               description := "Executed in " ++ ms ++ "ms";
               variant := None |}) \/
     (exists message,
        outcome = [SetError (Some message)] /\
        t = failure_toast message) \/
     (exists data thrown,
        outcome = [SetResponse data; SetError (Some (errorMessage thrown))] /\
        millis (H := Reference.engine) data = Throw thrown /\
        t = failure_toast (errorMessage thrown))).
Proof.
  apply (handleSubmit_effects_in_order (H := Reference.engine) ∅
           (Sample.replies_body Sample.body_odd_time) Sample.asked).
  unfold blank. vm_compute. discriminate.
Defined.

(** An ok response whose body is JSON [null]: the run does nine things,
    and ends with an error after a fetch that succeeded. *)
Example ok_body_null_run :
  let message := "Cannot read properties of null (reading 'execution_time')" in
  effects (H := Reference.engine) ∅ (Sample.replies_body JNull) Sample.asked =
    [PreventDefault; SetLoading true; SetError None; SetResponse JNull;
     Fetch "http://localhost:8000/query"
       (request_init "What's the average CPU usage?");
     SetResponse JNull; SetError (Some message);
     ShowToast (failure_toast message); SetLoading false] /\
  error (after (H := Reference.engine) ∅ (Sample.replies_body JNull)
           Sample.asked) = Some message.
Proof. split; reflexivity. Qed.

Lemma thrown_error_is_reported_witness :
  let net : Network := fun _ _ => Throw (ErrorInstance "Failed to fetch") in
  error (after (H := Reference.engine) ∅ net Sample.asked)
    = Some "Failed to fetch".
Proof.
  intros net.
  assert (Hq : ~ blank (query Sample.asked)).
  { unfold blank. vm_compute. discriminate. }
  destruct (thrown_error_is_reported (H := Reference.engine) ∅ net
              Sample.asked (ErrorInstance "Failed to fetch") Hq
              (or_introl eq_refl))
    as (_ & Hmessage & _).
  apply Hmessage. reflexivity.
Defined.

Lemma body_without_detail_witness :
  let net : Network := fun _ _ => Ok (NotOk (Ok JNull)) in
  error (after (H := Reference.engine) ∅ net Sample.asked)
    = Some "Cannot read properties of null (reading 'detail')".
Proof.
  intros net.
  assert (Hq : ~ blank (query Sample.asked)).
  { unfold blank. vm_compute. discriminate. }
  apply (proj1 (body_without_detail (H := Reference.engine) ∅ net
                  Sample.asked JNull Hq eq_refl)).
  reflexivity.
Defined.

Lemma structured_detail_is_stringified_witness :
  let detail := JArr [JObj [("msg", JStr "field required")];
                      JObj [("msg", JStr "value is not a string")]] in
  let odd := JObj [("toString", JNum (Number.of_Z 1))] in
  error (after (H := Reference.engine) ∅ (Sample.replies_detail detail)
           Sample.asked)
    = Some "[object Object],[object Object]" /\
  error (after (H := Reference.engine) ∅ (Sample.replies_detail odd)
           Sample.asked)
    = Some "Cannot convert object to primitive value".
Proof.
  intros detail odd.
  assert (Hq : ~ blank (query Sample.asked)).
  { unfold blank. vm_compute. discriminate. }
  split.
  - destruct (structured_detail_is_stringified (H := Reference.engine) ∅
                (Sample.replies_detail detail) Sample.asked
                [("detail", detail)] detail Hq eq_refl eq_refl eq_refl)
      as (_ & _ & _ & Harray).
    apply (Harray _ _ eq_refl); reflexivity.
  - destruct (structured_detail_is_stringified (H := Reference.engine) ∅
                (Sample.replies_detail odd) Sample.asked
                [("detail", odd)] odd Hq eq_refl eq_refl eq_refl)
      as (_ & _ & Hobject & _).
    apply (Hobject _ eq_refl).
Defined.

(** ** What the page shows *)

Section DisplayProperties.
Context `{Engine}.
Variable env : gmap string string.

(** X10. After a run that did not end with an answer, no answer is
    shown, and the error alert is shown exactly when the message is not
    empty: a failure whose message is the empty string (a [detail] that
    is an empty array, say) leaves the page with neither. *)
Theorem failure_display (net : Network) (st : State) :
  ~ blank (query st) ->
  (forall data,
     net (request_url env) (request_init (query st))
       <> Ok (Success (Ok data))) ->
  exists message view,
    error (after env net st) = Some message /\
    render (after env net st) = Ok view /\
    shown (answer_cards view) = false /\
    (shown (error_alert view) = true <-> message <> "") /\
    (message <> "" -> error_alert view = Element message).
Proof.
  intros Hq Hfail.
  destruct (run_cases env net st Hq)
    as [(data & ms & Hnet & _)
       |[(data & t & Hnet & _)|(message & _ & Hrun)]];
    [by destruct (Hfail data)..|].
  unfold after. rewrite Hrun. cbn [failed snd cells].
  rewrite render_falsy by done. cbn [error loading response].
  exists message. eexists. split_and!; try done.
  - cbn [error_alert]. unfold when. simpl.
    destruct (String.eqb message "") eqn:Hm; simpl.
    + apply String.eqb_eq in Hm. by split.
    + apply String.eqb_neq in Hm. by split.
  - intros Hm. cbn [error_alert]. unfold when. simpl.
    apply String.eqb_neq in Hm. by rewrite Hm.
Qed.

(** X11. After a run that ended with an answer of the declared type,
    the page, when it renders, shows the sentence and the query of that
    answer and no error alert, and the duration in the badge is the one
    the toast announced; and the page does render when [raw_data.result]
    is absent or an array. *)
Theorem success_display (net : Network) (st : State) (data : QueryResponse) :
  ~ blank (query st) ->
  net (request_url env) (request_init (query st))
    = Ok (Success (Ok (to_json data))) ->
  (forall view,
     render (after env net st) = Ok view ->
     exists cards,
       answer_cards view = Element cards /\
       shown (error_alert view) = false /\
       answer_text cards = JStr (natural_language_response data) /\
       promql_code cards = JStr (promql_query data) /\
       ShowToast {| title := "Query successful!";
                    description := "Executed in " ++ execution_badge cards;
                    variant := None |} ∈ effects env net st) /\
  (plain_result (raw_data data) ->
   exists view, render (after env net st) = Ok view).
Proof.
  intros Hq Hnet. unfold after, effects.
  rewrite (run_success env net st _ _ Hq Hnet (millis_to_json data)).
  cbn [succeeded snd cells trace]. unfold render.
  cbn [response error loading]. split.
  - intros view.
    assert (Htruthy : ToBoolean (to_json data) = true) by done.
    rewrite Htruthy.
    destruct (render_answer (to_json data)) as [cards|t] eqn:Hcards; [|done].
    cbn [obind]. intros [= <-]. exists cards.
    destruct (render_answer_typed data cards Hcards)
      as (points & cond & _ & _ & ->).
    split_and!; try done.
    cbn [typed_cards execution_badge]. set_solver.
  - intros Hplain.
    destruct (render_answer_plain data Hplain)
      as (points & cond & _ & _ & ->).
    assert (Htruthy : ToBoolean (to_json data) = true) by done.
    rewrite Htruthy. by eexists.
Qed.

(** X12. While the request is awaited the page is locked and empty: the
    input and the submit button are disabled, the button reads
    [Analyzing...], and neither the previous answer nor the previous
    error is shown, whatever was shown before. The lock is in the view
    only: the handler never reads [loading], so a submit event that
    reached it in that state would send the request again. *)
Theorem in_flight_locked_by_view_only (net : Network) (st : State) :
  ~ blank (query st) ->
  render (in_flight st) =
    Ok {| input_disabled := true;
          submit_disabled := true;
          submit_label := "Analyzing...";
          error_alert := Value JNull;
          answer_cards := Value JNull |} /\
  loading (in_flight st) = true /\
  requests env net (in_flight st)
    = [(request_url env, request_init (query st))].
Proof.
  intros Hq. split_and!; [done|done|].
  assert (Hq' : ~ blank (query (in_flight st))) by done.
  unfold requests, effects.
  by destruct (run_cases env net (in_flight st) Hq')
    as [(data & ms & _ & _ & ->)
       |[(data & t & _ & _ & ->)|(message & _ & ->)]].
Qed.

(** X14. Every example question passes the guard as it stands: clicking
    an example only replaces the question, and submitting then sends one
    request that carries the example unchanged. *)
Theorem examples_are_submitted
    (net : Network) (st : State) (example : string) :
  example ∈ exampleQueries ->
  let st' := handleExampleClick example st in
  response st' = response st /\ error st' = error st /\
  ~ blank (query st') /\
  requests env net st' = [(request_url env, request_init example)].
Proof.
  intros Hin st'.
  assert (Hq : ~ blank example).
  { unfold exampleQueries in Hin. unfold blank.
    repeat (apply elem_of_cons in Hin as [->|Hin];
            [vm_compute; discriminate|]).
    by apply elem_of_nil in Hin. }
  split_and!; try done.
  unfold requests, effects.
  by destruct (run_cases env net st' Hq)
    as [(data & ms & _ & _ & ->)
       |[(data & t & _ & _ & ->)|(message & _ & ->)]].
Qed.

End DisplayProperties.

Lemma failure_display_witness :
  exists message view,
    error (after (H := Reference.engine) ∅
             (Sample.replies_detail (JArr [])) Sample.asked) = Some message /\
    render (H := Reference.engine)
      (after (H := Reference.engine) ∅
         (Sample.replies_detail (JArr [])) Sample.asked) = Ok view /\
    shown (answer_cards view) = false /\
    (shown (error_alert view) = true <-> message <> "") /\
    (message <> "" -> error_alert view = Element message).
Proof.
  apply (failure_display (H := Reference.engine) ∅
           (Sample.replies_detail (JArr [])) Sample.asked).
  - unfold blank. vm_compute. discriminate.
  - intros data. discriminate.
Defined.

Lemma success_display_witness :
  exists view,
    render (H := Reference.engine)
      (after (H := Reference.engine) ∅ Sample.replies_ok Sample.asked)
      = Ok view.
Proof.
  apply (success_display (H := Reference.engine) ∅ Sample.replies_ok
           Sample.asked Sample.data).
  - unfold blank. vm_compute. discriminate.
  - reflexivity.
  - right. eexists. split; [reflexivity|]. right. by eexists.
Defined.

Lemma in_flight_locked_by_view_only_witness :
  requests (H := Reference.engine) ∅ Sample.replies_ok
    (in_flight Sample.asked)
  = [(request_url ∅, request_init "What's the average CPU usage?")].
Proof.
  apply (in_flight_locked_by_view_only (H := Reference.engine) ∅
           Sample.replies_ok Sample.asked).
  unfold blank. vm_compute. discriminate.
Defined.

Lemma examples_are_submitted_witness :
  requests (H := Reference.engine) ∅ Sample.replies_ok
    (handleExampleClick "Is the system up?" initial)
  = [(request_url ∅, request_init "Is the system up?")].
Proof.
  apply (examples_are_submitted (H := Reference.engine) ∅ Sample.replies_ok
           initial "Is the system up?").
  unfold exampleQueries. do 5 apply list_elem_of_further.
  apply list_elem_of_here.
Defined.

(** ** One run after another *)

Section Resubmission.
Context `{Engine}.
Variable env : gmap string string.

Lemma query_after (net : Network) (st : State) :
  query (after env net st) = query st.
Proof.
  unfold after. destruct (blank_dec (query st)) as [Hq|Hq].
  - by rewrite run_blank.
  - by destruct (run_cases env net st Hq)
      as [(data & ms & _ & _ & ->)
         |[(data & t & _ & _ & ->)|(message & _ & ->)]].
Qed.

Lemma after_reads_query_only (net : Network) (st1 st2 : State) :
  ~ blank (query st1) -> query st2 = query st1 ->
  after env net st2 = after env net st1.
Proof.
  intros Hq Hsame. unfold after.
  assert (Hq2 : ~ blank (query st2)) by by rewrite Hsame.
  destruct (net (request_url env) (request_init (query st1)))
    as [[[data|t]|json]|t] eqn:Hnet.
  - destruct (millis data) as [ms|t] eqn:Hms.
    + rewrite (run_success env net st1 data ms Hq Hnet Hms).
      rewrite (run_success env net st2 data ms Hq2)
        by (by rewrite ?Hsame).
      simpl. by rewrite Hsame.
    + rewrite (run_failed_after_store env net st1 data t Hq Hnet Hms).
      rewrite (run_failed_after_store env net st2 data t Hq2)
        by (by rewrite ?Hsame).
      simpl. by rewrite Hsame.
  - rewrite (run_success_unreadable env net st1 t Hq Hnet).
    rewrite (run_success_unreadable env net st2 t Hq2) by by rewrite Hsame.
    simpl. by rewrite Hsame.
  - rewrite (run_not_ok env net st1 json Hq Hnet).
    rewrite (run_not_ok env net st2 json Hq2) by by rewrite Hsame.
    simpl. by rewrite Hsame.
  - rewrite (run_rejected env net st1 t Hq Hnet).
    rewrite (run_rejected env net st2 t Hq2) by by rewrite Hsame.
    simpl. by rewrite Hsame.
Qed.

(** X15. Only the latest submit counts: submitting the same question
    again ends exactly where that submit alone would have ended, so an
    answer never outlives a later failure, and an error never outlives a
    later answer of the declared type, nor any later answer whose
    duration can be computed. *)
Theorem latest_submit_wins (first second : Network) (st : State) :
  ~ blank (query st) ->
  after env second (after env first st) = after env second st /\
  ((forall data,
      second (request_url env) (request_init (query st))
        <> Ok (Success (Ok data))) ->
   response (after env second (after env first st)) = JNull) /\
  (forall data : QueryResponse,
     second (request_url env) (request_init (query st))
       = Ok (Success (Ok (to_json data))) ->
     error (after env second (after env first st)) = None) /\
  (forall data ms,
     second (request_url env) (request_init (query st))
       = Ok (Success (Ok data)) ->
     millis data = Ok ms ->
     error (after env second (after env first st)) = None).
Proof.
  intros Hq.
  assert (Hsame :
    after env second (after env first st) = after env second st).
  { apply after_reads_query_only; [done|apply query_after]. }
  rewrite Hsame.
  assert (Hok : forall data ms,
    second (request_url env) (request_init (query st))
      = Ok (Success (Ok data)) ->
    millis data = Ok ms ->
    error (after env second st) = None).
  { intros data ms Hnet Hms. unfold after.
    by rewrite (run_success env second st data ms Hq Hnet Hms). }
  split_and!; [done| | |exact Hok].
  - intros Hfail. unfold after.
    destruct (run_cases env second st Hq)
      as [(data & ms & Hnet & _)
         |[(data & t & Hnet & _)|(message & _ & ->)]];
      [by destruct (Hfail data)..|done].
  - intros data Hnet. by apply (Hok _ _ Hnet (millis_to_json data)).
Qed.

End Resubmission.

Lemma latest_submit_wins_witness :
  let down : Network := fun _ _ => Throw (ErrorInstance "Failed to fetch") in
  response
    (after (H := Reference.engine) ∅ down
       (after (H := Reference.engine) ∅ Sample.replies_ok Sample.asked))
  = JNull.
Proof.
  intros down.
  assert (Hq : ~ blank (query Sample.asked)).
  { unfold blank. vm_compute. discriminate. }
  destruct (latest_submit_wins (H := Reference.engine) ∅ Sample.replies_ok
              down Sample.asked Hq) as (_ & Hfail & _).
  apply Hfail. intros data. discriminate.
Defined.
